(** * doc_generator: fetch user records, map them, render a text report

    A shallow embedding of [doc_generator.py] and the properties of its
    record mapper ([UserData.from_json]), fetch client
    ([ApiClient.fetch_data]), report renderer
    ([ReportGenerator.generate_text_report]), file writer
    ([ReportGenerator.__init__], [ReportGenerator.save_to_file]) and
    driver (the [__main__] block).

    Python values are an inductive type, exceptions are values of a record
    with a class tag, and the effects of the program (console, clock,
    network answer, file system) are threaded through an explicit world. *)

From Stdlib Require Import ZArith Ascii String DecimalString.
From stdpp Require Import base option list strings gmap.

Set Warnings "-register-all".
Local Open Scope Z_scope.

(** ** Python values

    What [json.loads] can return, and therefore what the fields of a
    [UserData] can hold (the dataclass annotations are not enforced).
    A float is represented by its [repr], the shortest decimal string that
    reads back as the same float. A dict keeps its insertion order, which
    [str] of a dict shows. *)

Inductive pyval : Type :=
| PNone
| PBool (b : bool)
| PInt (z : Z)
| PFloat (repr : string)
| PStr (s : string)
| PList (items : list pyval)
| PDict (entries : list (string * pyval)).

Definition type_name (v : pyval) : string :=
  match v with
  | PNone => "NoneType"
  | PBool _ => "bool"
  | PInt _ => "int"
  | PFloat _ => "float"
  | PStr _ => "str"
  | PList _ => "list"
  | PDict _ => "dict"
  end.

Definition is_dict (v : pyval) : bool :=
  match v with PDict _ => true | _ => false end.

(** [d[key]] on the entries of a dict. *)
Fixpoint dict_lookup (d : list (string * pyval)) (key : string) : option pyval :=
  match d with
  | [] => None
  | (k, v) :: rest => if String.eqb k key then Some v else dict_lookup rest key
  end.

(** ** Exceptions *)

Inductive exc_class : Type :=
| BaseException | KeyboardInterrupt | Exception
| ValueError | JSONDecodeError | UnicodeDecodeError | UnicodeEncodeError
| AttributeError | TypeError | EOFError
| OSError | FileExistsError | FileNotFoundError | PermissionError
| NotADirectoryError | IsADirectoryError | TimeoutError
| URLError | HTTPError
| AppError | APIConnectionError | DataParseError.

#[global] Instance exc_class_eq_dec : EqDecision exc_class.
Proof. solve_decision. Defined.

(** The direct base class. [AppError], [APIConnectionError] and
    [DataParseError] are the program's own (lines 11-21); the others are
    the built-in and urllib hierarchies. *)
Definition base_class (c : exc_class) : option exc_class :=
  match c with
  | BaseException => None
  | KeyboardInterrupt | Exception => Some BaseException
  | ValueError | AttributeError | TypeError | EOFError | OSError | AppError =>
      Some Exception
  | JSONDecodeError | UnicodeDecodeError | UnicodeEncodeError =>
      Some ValueError
  | FileExistsError | FileNotFoundError | PermissionError
  | NotADirectoryError | IsADirectoryError | TimeoutError | URLError =>
      Some OSError
  | HTTPError => Some URLError
  | APIConnectionError | DataParseError => Some AppError
  end.

Fixpoint issubclass_upto (fuel : nat) (c d : exc_class) : bool :=
  if bool_decide (c = d) then true
  else match fuel, base_class c with
       | S fuel', Some b => issubclass_upto fuel' b d
       | _, _ => false
       end.

(** The hierarchy is five levels deep. *)
Definition issubclass : exc_class → exc_class → bool := issubclass_upto 5.

(** A raised exception: its class, [str(e)], and the [reason] attribute
    that a [URLError] carries (as [str] shows it). *)
Record pyexc : Type := mk_pyexc {
  exc_type : exc_class;
  exc_str : string;
  exc_reason : string
}.

Definition new_exc (c : exc_class) (msg : string) : pyexc :=
  {| exc_type := c; exc_str := msg; exc_reason := "" |}.

Definition isinstance (e : pyexc) (c : exc_class) : bool :=
  issubclass (exc_type e) c.
#[global] Arguments isinstance : simpl never.

Inductive result (A : Type) : Type :=
| Ok (a : A)
| Raise (e : pyexc).
Arguments Ok {A} a.
Arguments Raise {A} e.

#[global] Instance result_ret : MRet result := λ A a, Ok a.
#[global] Instance result_bind : MBind result := λ A B f m,
  match m with
  | Ok a => f a
  | Raise e => Raise e
  end.

(** [try: body / except c as e: handler e], for a body without effects. *)
Definition try_except {A : Type} (body : result A) (c : exc_class)
    (handler : pyexc → result A) : result A :=
  match body with
  | Ok a => Ok a
  | Raise e => if isinstance e c then handler e else Raise e
  end.

(** ** The record mapper (lines 26-50) *)

Record UserData : Type := mk_UserData {
  id : pyval;
  name : pyval;
  username : pyval;
  email : pyval;
  company_name : pyval;
  city : pyval
}.

(** [v.get(key, default)]: only a dict has the method. *)
Definition py_get (v : pyval) (key : string) (fallback : pyval) : result pyval :=
  match v with
  | PDict d => Ok (default fallback (dict_lookup d key))
  | _ => Raise (new_exc AttributeError
                  ("'" +:+ type_name v +:+ "' object has no attribute 'get'"))
  end.

Definition from_json (data : pyval) : result UserData :=
  try_except
    (id_ ← py_get data "id" PNone;
     name_ ← py_get data "name" PNone;
     username_ ← py_get data "username" PNone;
     email_ ← py_get data "email" PNone;
     company ← py_get data "company" (PDict []);
     company_name_ ← py_get company "name" (PStr "N/A");
     address ← py_get data "address" (PDict []);
     city_ ← py_get address "city" (PStr "N/A");
     mret (mk_UserData id_ name_ username_ email_ company_name_ city_))
    AttributeError
    (λ e, Raise (new_exc ValueError ("Invalid data structure: " +:+ exc_str e))).

(** ** Strings and formatting *)

(** [str(n)] for an int. *)
Definition str_of_Z (z : Z) : string := NilZero.string_of_int (Z.to_int z).

(** [s * n]. *)
Fixpoint str_repeat (s : string) (n : nat) : string :=
  match n with
  | O => ""
  | S n' => s +:+ str_repeat s n'
  end.

(** [f"{s:^width}"]: the padding left over is split with the smaller half
    on the left. *)
Definition format_center (s : string) (width : nat) : string :=
  let len := String.length s in
  if (width <=? len)%nat then s
  else
    let total := (width - len)%nat in
    let left := (total / 2)%nat in
    str_repeat " " left +:+ s +:+ str_repeat " " (total - left).

(** [sep.join(parts)]. *)
Definition str_join (sep : string) (parts : list string) : string :=
  String.concat sep parts.

Definition newline : string := String ("010"%char) "".

(** [s.split(sep)] for a one-character separator [c]. *)
Fixpoint str_split (c : ascii) (s : string) : list string :=
  match s with
  | EmptyString => [""]
  | String a rest =>
      if Ascii.eqb a c then "" :: str_split c rest
      else match str_split c rest with
           | [] => [String a ""]
           | first :: others => String a first :: others
           end
  end.

(** [s.endswith(suffix)]: some tail of [s] is [suffix]. *)
Fixpoint endswith (s suffix : string) : bool :=
  String.eqb s suffix ||
  match s with
  | EmptyString => false
  | String _ rest => endswith rest suffix
  end.

(** [s.count("\n")]. *)
Fixpoint count_newlines (s : string) : nat :=
  match s with
  | EmptyString => 0
  | String c rest =>
      ((if Ascii.eqb c ("010"%char) then 1 else 0) + count_newlines rest)%nat
  end.

(** [s.split("\n")]. *)
Definition splitlines (s : string) : list string :=
  str_split ("010"%char) s.

(** [c in s], for a character [c]. *)
Definition occurs (c : ascii) (s : string) : bool :=
  existsb (Ascii.eqb c) (list_ascii_of_string s).

(** ["/" in s]. *)
Definition has_slash (s : string) : bool := occurs "/" s.

(** ["\0" in s]. *)
Definition has_nul (s : string) : bool := occurs "000" s.

(** A str is held as the bytes of its UTF-8 form, and a lone surrogate,
    which [json.loads] lets through from an escape such as [\ud800], as
    the three bytes that this form gives it: the byte 237 followed by a
    byte from 160 to 191. Such a str is what the utf-8 codec refuses to
    encode. *)
Fixpoint has_surrogate (s : string) : bool :=
  match s with
  | EmptyString => false
  | String c rest =>
      match rest with
      | String d _ =>
          Ascii.eqb c "237" &&
          (160 <=? nat_of_ascii d)%nat && (nat_of_ascii d <=? 191)%nat
      | EmptyString => false
      end
      || has_surrogate rest
  end.

(** A file name is encoded with the [surrogateescape] handler, which lets
    through the surrogates from U+DC80 to U+DCFF (second byte 178 or 179)
    and refuses the others. *)
Fixpoint path_refused (s : string) : bool :=
  match s with
  | EmptyString => false
  | String c rest =>
      match rest with
      | String d _ =>
          Ascii.eqb c "237" &&
          (160 <=? nat_of_ascii d)%nat && (nat_of_ascii d <=? 191)%nat &&
          negb (Ascii.eqb d "178") && negb (Ascii.eqb d "179")
      | EmptyString => false
      end
      || path_refused rest
  end.

(** [n] in decimal, zero-padded on the left to [width] digits, as
    [strftime] prints the fields of a date. *)
Definition zero_pad (width : nat) (n : nat) : string :=
  let digits := str_of_Z (Z.of_nat n) in
  str_repeat "0" (width - String.length digits) +:+ digits.

Record datetime : Type := mk_datetime {
  year : nat; month : nat; day : nat;
  hour : nat; minute : nat; second : nat
}.

(** [t.strftime('%Y-%m-%d %H:%M:%S')]. *)
Definition strftime_report (t : datetime) : string :=
  zero_pad 4 (year t) +:+ "-" +:+ zero_pad 2 (month t) +:+ "-" +:+
  zero_pad 2 (day t) +:+ " " +:+ zero_pad 2 (hour t) +:+ ":" +:+
  zero_pad 2 (minute t) +:+ ":" +:+ zero_pad 2 (second t).

(** [t.strftime('%Y%m%d_%H%M%S')]. *)
Definition strftime_filename (t : datetime) : string :=
  zero_pad 4 (year t) +:+ zero_pad 2 (month t) +:+ zero_pad 2 (day t) +:+
  "_" +:+ zero_pad 2 (hour t) +:+ zero_pad 2 (minute t) +:+
  zero_pad 2 (second t).

(** ** The Python runtime the program calls

    Three library functions are not part of the program and are taken as
    given: the JSON decoder, [repr] of a [str] (its escaping follows the
    Unicode database) and [os.path.abspath] (it depends on the working
    directory). *)
Record PyRuntime : Type := mk_PyRuntime {
  json_loads : string → result pyval;
  str_repr : string → string;
  os_path_abspath : string → string
}.

(** ** The world the program runs in

    The network answers the one GET either by making [urlopen] raise or
    with a response object; reading the body can itself raise. The clock
    gives the successive readings of [datetime.datetime.now()]. The file
    system is a map from paths, compared as written, to nodes, together
    with the failures the operating system decides on (permissions, disk
    full, invalid path): [w_fault op path] is the error that [op] on [path]
    meets, if any. The console is the text written so far and the lines
    still to be read. *)

Record response : Type := mk_response {
  status : Z;
  read : result string
}.

Inductive node : Type :=
| Dir
| File (content : string).

Inductive fs_op : Type := OpMakedirs | OpOpen | OpWrite.

Record world : Type := mk_world {
  w_urlopen : result response;
  w_clock : nat → datetime;
  w_ticks : nat;
  w_nodes : gmap string node;
  w_fault : fs_op → string → option pyexc;
  w_stdout : string;
  w_stdin : list string
}.

Definition set_ticks (n : nat) (w : world) : world :=
  mk_world (w_urlopen w) (w_clock w) n (w_nodes w) (w_fault w)
           (w_stdout w) (w_stdin w).
Definition set_nodes (m : gmap string node) (w : world) : world :=
  mk_world (w_urlopen w) (w_clock w) (w_ticks w) m (w_fault w)
           (w_stdout w) (w_stdin w).
Definition set_stdout (out : string) (w : world) : world :=
  mk_world (w_urlopen w) (w_clock w) (w_ticks w) (w_nodes w) (w_fault w)
           out (w_stdin w).
Definition set_stdin (inp : list string) (w : world) : world :=
  mk_world (w_urlopen w) (w_clock w) (w_ticks w) (w_nodes w) (w_fault w)
           (w_stdout w) inp.

(** A computation reads and changes the world and returns or raises; what
    it did to the world before raising stays done. *)
Definition M (A : Type) : Type := world → result A * world.

#[global] Instance M_ret : MRet M := λ A a w, (Ok a, w).
#[global] Instance M_bind : MBind M := λ A B f m w,
  match m w with
  | (Ok a, w') => f a w'
  | (Raise e, w') => (Raise e, w')
  end.

Definition raise {A : Type} (e : pyexc) : M A := λ w, (Raise e, w).

Definition lift {A : Type} (r : result A) : M A := λ w, (r, w).

(** [try: body] followed by [except] clauses: [clauses e] is the handler
    of the first clause that matches [e], if one does. *)
Definition try_catch {A : Type} (body : M A) (clauses : pyexc → option (M A))
    : M A := λ w,
  match body w with
  | (Ok a, w') => (Ok a, w')
  | (Raise e, w') =>
      match clauses e with
      | Some handler => handler w'
      | None => (Raise e, w')
      end
  end.

(** [print(s)]. The console is taken to accept what is printed: a
    [print] that fails (a closed or full standard output) is outside this
    model. *)
Definition print (s : string) : M unit := λ w,
  (Ok (), set_stdout (w_stdout w +:+ s +:+ newline) w).

(** [input(prompt)]. The one failure that is modelled is the end of the
    input. *)
Definition input (prompt : string) : M string := λ w,
  let w' := set_stdout (w_stdout w +:+ prompt) w in
  match w_stdin w with
  | [] => (Raise (new_exc EOFError "EOF when reading a line"), w')
  | line :: rest => (Ok line, set_stdin rest w')
  end.

(** [datetime.datetime.now()]. *)
Definition datetime_now : M datetime := λ w,
  (Ok (w_clock w (w_ticks w)), set_ticks (S (w_ticks w)) w).

(** [urllib.request.urlopen(url, timeout=10)]. *)
Definition urlopen (url : string) : M response := λ w, (w_urlopen w, w).

(** *** File system operations *)

(** [os.path.exists(path)]. *)
Definition os_path_exists (path : string) : M bool := λ w,
  (Ok (bool_decide (is_Some (w_nodes w !! path))), w).

(** [os.path.join(a, b)]. *)
Definition os_path_join (a b : string) : string :=
  if String.prefix "/" b then b
  else if String.eqb a "" || endswith a "/" then a +:+ b
  else a +:+ "/" +:+ b.

(** The prefixes of [path] that end before a slash, then [path] itself:
    the directories [os.makedirs] goes through. *)
Fixpoint path_prefixes_from (seen rest : string) : list string :=
  match rest with
  | EmptyString => [seen]
  | String c rest' =>
      (if Ascii.eqb c "/" && negb (String.eqb seen "") then [seen] else [])
      ++ path_prefixes_from (seen +:+ String c "") rest'
  end.

Definition path_prefixes (path : string) : list string :=
  path_prefixes_from "" path.

(** [os.path.dirname(path)] up to trailing slashes: what precedes the last
    slash. *)
Fixpoint dirname (path : string) : string :=
  match path with
  | EmptyString => ""
  | String c rest =>
      if existsb (Ascii.eqb "/") (list_ascii_of_string rest)
      then String c (dirname rest)
      else ""
  end.

(** [os.path.basename(path)]: what follows the last slash. *)
Fixpoint basename (path : string) : string :=
  match path with
  | EmptyString => ""
  | String c rest =>
      if has_slash rest then basename rest
      else if Ascii.eqb c "/" then rest else path
  end.

(** A path whose last component is empty, [.] or [..] names a directory,
    whatever is there. *)
Definition names_directory (path : string) : bool :=
  String.eqb (basename path) "" || String.eqb (basename path) "."
  || String.eqb (basename path) "..".

Definition is_file (n : option node) : bool :=
  match n with Some (File _) => true | _ => false end.

Definition is_dir (n : option node) : bool :=
  match n with Some Dir => true | _ => false end.

Definition mkdir_all (dirs : list string) (m : gmap string node)
    : gmap string node :=
  foldl (λ acc d, <[d := Dir]> acc) m dirs.

(** [os.makedirs(path)]: creates [path] and its missing parents; an
    existing [path] is an error. A call that fails is taken to have made
    nothing: the parents that the real call may have made before the
    directory that fails are not modelled. *)
Definition os_makedirs (path : string) : M unit := λ w,
  match w_fault w OpMakedirs path with
  | Some e => (Raise e, w)
  | None =>
      if bool_decide (is_Some (w_nodes w !! path)) then
        (Raise (new_exc FileExistsError
                  ("[Errno 17] File exists: '" +:+ path +:+ "'")), w)
      else if existsb (λ d, is_file (w_nodes w !! d)) (path_prefixes path) then
        (Raise (new_exc NotADirectoryError
                  ("[Errno 20] Not a directory: '" +:+ path +:+ "'")), w)
      else (Ok (), set_nodes (mkdir_all (path_prefixes path) (w_nodes w)) w)
  end.

(** [with open(path, 'w', encoding='utf-8') as f: f.write(content)].
    A path that cannot be encoded, or that has a NUL character, is
    refused before anything is asked of the operating system; a path that
    is empty or names a directory cannot be opened for writing. Opening
    truncates; a content that cannot be encoded, or a write that fails,
    leaves the truncated file. *)
Definition open_and_write (path content : string) : M unit := λ w,
  if path_refused path then
    (Raise (new_exc UnicodeEncodeError
              "'utf-8' codec can't encode character: surrogates not allowed"),
     w)
  else if has_nul path then
    (Raise (new_exc ValueError "embedded null byte"), w)
  else
  match w_fault w OpOpen path with
  | Some e => (Raise e, w)
  | None =>
      if String.eqb path "" then
        (Raise (new_exc FileNotFoundError
                  "[Errno 2] No such file or directory: ''"), w)
      else if names_directory path || is_dir (w_nodes w !! path) then
        (Raise (new_exc IsADirectoryError
                  ("[Errno 21] Is a directory: '" +:+ path +:+ "'")), w)
      else if negb (String.eqb (dirname path) "")
              && negb (is_dir (w_nodes w !! dirname path)) then
        (Raise (new_exc FileNotFoundError
                  ("[Errno 2] No such file or directory: '" +:+ path +:+ "'")),
         w)
      else if has_surrogate content then
        (Raise (new_exc UnicodeEncodeError
                  "'utf-8' codec can't encode character: surrogates not allowed"),
         set_nodes (<[path := File ""]> (w_nodes w)) w)
      else
        match w_fault w OpWrite path with
        | Some e => (Raise e, set_nodes (<[path := File ""]> (w_nodes w)) w)
        | None => (Ok (), set_nodes (<[path := File content]> (w_nodes w)) w)
        end
  end.

Section Program.
Context (rt : PyRuntime).

(** ** [repr] and [str] of a value *)

Fixpoint py_repr (v : pyval) : string :=
  match v with
  | PNone => "None"
  | PBool true => "True"
  | PBool false => "False"
  | PInt z => str_of_Z z
  | PFloat r => r
  | PStr s => str_repr rt s
  | PList items => "[" +:+ str_join ", " (map py_repr items) +:+ "]"
  | PDict entries =>
      "{" +:+
      str_join ", "
        (map (λ kv, str_repr rt (fst kv) +:+ ": " +:+ py_repr (snd kv)) entries)
      +:+ "}"
  end.

(** What an f-string puts for [{v}]. *)
Definition py_str (v : pyval) : string :=
  match v with
  | PStr s => s
  | _ => py_repr v
  end.

(** ** The fetch client (lines 55-84) *)

Definition BASE_URL : string := "https://jsonplaceholder.typicode.com/users".

(** The items a [for] loop over [v] goes through. A str is gone through
    one character at a time. *)
Definition py_iter (v : pyval) : result (list pyval) :=
  match v with
  | PList items => Ok items
  | PDict entries => Ok (map (λ kv, PStr (fst kv)) entries)
  | PStr s => Ok (map (λ c, PStr (String c "")) (list_ascii_of_string s))
  | _ => Raise (new_exc TypeError
                  ("'" +:+ type_name v +:+ "' object is not iterable"))
  end.

(** [for item in data_list: users.append(UserData.from_json(item))],
    from the items left and the users appended so far. *)
Fixpoint fetch_loop (items : list pyval) (users : list UserData)
    : result (list UserData) :=
  match items with
  | [] => Ok users
  | item :: rest =>
      match from_json item with
      | Ok user => fetch_loop rest (users ++ [user])
      | Raise e => Raise e
      end
  end.

(** The three [except] clauses of [fetch_data], in order. *)
Definition fetch_data_except (e : pyexc) : option (M (list UserData)) :=
  if isinstance e URLError then
    Some (raise (new_exc APIConnectionError
                   ("Network Error: " +:+ exc_reason e)))
  else if isinstance e JSONDecodeError then
    Some (raise (new_exc DataParseError
                   ("JSON Decode Error: " +:+ exc_str e)))
  else if isinstance e Exception then
    Some (raise (new_exc AppError ("Unexpected Error: " +:+ exc_str e)))
  else None.

Definition fetch_data : M (list UserData) :=
  print ("Fetching data from " +:+ BASE_URL +:+ "...");;
  try_catch
    (response ← urlopen BASE_URL;
     if bool_decide (status response ≠ 200) then
       raise (new_exc APIConnectionError
                ("HTTP Error: " +:+ str_of_Z (status response)))
     else
       data ← lift (read response);
       data_list ← lift (json_loads rt data);
       items ← lift (py_iter data_list);
       users ← lift (fetch_loop items []);
       print ("Successfully fetched " +:+
              str_of_Z (Z.of_nat (length users)) +:+ " records.");;
       mret users)
    fetch_data_except.

(** ** The report generator (lines 88-121) *)

Record ReportGenerator : Type := mk_ReportGenerator {
  output_dir : string
}.

(** [ReportGenerator.__init__]. *)
Definition ReportGenerator_init (dir : string) : M ReportGenerator :=
  present ← os_path_exists dir;
  (if negb present then
     try_catch (os_makedirs dir)
       (λ e, if isinstance e OSError then Some (mret ()) else None)
   else mret ());;
  mret (mk_ReportGenerator dir).

(** The lines appended before the loop, for the clock reading [t]. *)
Definition header_lines (t : datetime) : list string :=
  [ str_repeat "=" 60;
    format_center "PORTABLE DOC REPORT" 60;
    str_repeat "=" 60;
    "Generated on: " +:+ strftime_report t;
    str_repeat "-" 60 ].

(** The lines one turn of the loop appends. *)
Definition user_lines (user : UserData) : list string :=
  [ "ID       : " +:+ py_str (id user);
    "Name     : " +:+ py_str (name user);
    "Username : " +:+ py_str (username user);
    "Email    : " +:+ py_str (email user);
    "Company  : " +:+ py_str (company_name user);
    "City     : " +:+ py_str (city user);
    str_repeat "-" 30 ].

(** [lines] when [generate_text_report] reaches its [return]. *)
Definition report_lines (t : datetime) (users : list UserData) : list string :=
  foldl (λ lines user, lines ++ user_lines user) (header_lines t) users
  ++ [ "Total Users: " +:+ str_of_Z (Z.of_nat (length users)) ].

Definition generate_text_report (self : ReportGenerator)
    (users : list UserData) : M string :=
  t ← datetime_now;
  mret (str_join newline (report_lines t users)).

Definition save_to_file (self : ReportGenerator) (content filename : string)
    : M unit :=
  let filepath := os_path_join (output_dir self) filename in
  open_and_write filepath content;;
  print ("Report saved to: " +:+ os_path_abspath rt filepath).

(** ** The driver (lines 125-141) *)

Definition main : M unit :=
  print "Starting Portable DOC Generator (Zero-Dependency)...";;
  try_catch
    (users ← fetch_data;
     generator ← ReportGenerator_init "portable_reports";
     report_content ← generate_text_report generator users;
     t ← datetime_now;
     let filename := "Report_" +:+ strftime_filename t +:+ ".txt" in
     save_to_file generator report_content filename;;
     print "Done.")
    (λ e, if isinstance e Exception then
            Some (print ("Fatal Error: " +:+ exc_str e);;
                  _ ← input "Press Enter to exit...";
                  mret ())
          else None).

End Program.

(** ** A reference runtime

    An executable instance of [PyRuntime], to run the program on concrete
    inputs. Its decoder covers JSON texts built from objects, arrays,
    strings without escapes, integers, [true], [false] and [null]; it
    reports every other text as a [JSONDecodeError]. Its [repr] is the one
    of Python on ASCII strings, and its working directory is
    [/home/user]. The theorems below hold for every runtime. *)
Module RefRuntime.

Local Open Scope char_scope.

Definition dquote : ascii := "034".
Definition backslash : ascii := "092".

Definition is_ws (c : ascii) : bool :=
  existsb (Ascii.eqb c) [" "; "009"; "010"; "013"].

Definition is_digit (c : ascii) : bool :=
  (48 <=? nat_of_ascii c)%nat && (nat_of_ascii c <=? 57)%nat.

Fixpoint skip_ws (s : string) : string :=
  match s with
  | String c rest => if is_ws c then skip_ws rest else s
  | EmptyString => EmptyString
  end.

Definition str_drop (n : nat) (s : string) : string :=
  String.substring n (String.length s - n) s.

Fixpoint scan_digits (s : string) (acc : Z) : Z * string :=
  match s with
  | String c rest =>
      if is_digit c
      then scan_digits rest (10 * acc + Z.of_nat (nat_of_ascii c - 48))
      else (acc, s)
  | EmptyString => (acc, EmptyString)
  end.

Definition parse_number (s : string) : option (pyval * string) :=
  let '(negative, digits) :=
    match s with
    | String "-" rest => (true, rest)
    | _ => (false, s)
    end in
  match digits with
  | String c rest =>
      if is_digit c then
        let '(n, rest') :=
          if Ascii.eqb c "0" then (0%Z, rest) else scan_digits digits 0 in
        match rest' with
        | String d _ =>
            if existsb (Ascii.eqb d) ["."; "e"; "E"] then None
            else Some (PInt (if negative then - n else n), rest')
        | EmptyString => Some (PInt (if negative then - n else n), rest')
        end
      else None
  | EmptyString => None
  end.

(** The characters up to the closing quote, and what follows it. *)
Fixpoint scan_string (s : string) : option (string * string) :=
  match s with
  | EmptyString => None
  | String c rest =>
      if Ascii.eqb c dquote then Some (EmptyString, rest)
      else if Ascii.eqb c backslash || (nat_of_ascii c <? 32)%nat then None
      else match scan_string rest with
           | Some (body, rest') => Some (String c body, rest')
           | None => None
           end
  end.

(** [d[key] = v] on the entries of a dict: a key seen again keeps its
    place and takes the new value. *)
Fixpoint dict_set (d : list (string * pyval)) (key : string) (v : pyval)
    : list (string * pyval) :=
  match d with
  | [] => [(key, v)]
  | (k, old) :: rest =>
      if String.eqb k key then (k, v) :: rest
      else (k, old) :: dict_set rest key v
  end.

(** The elements of an array after the first bracket, up to the closing
    one, with [pv] to decode a value. *)
Fixpoint parse_elems (pv : string → option (pyval * string)) (fuel : nat)
    (s : string) : option (list pyval * string) :=
  match fuel with
  | O => None
  | S fuel' =>
      match pv s with
      | None => None
      | Some (v, rest) =>
          match skip_ws rest with
          | String "," rest' =>
              match parse_elems pv fuel' rest' with
              | Some (vs, rest'') => Some (v :: vs, rest'')
              | None => None
              end
          | String "]" rest' => Some ([v], rest')
          | _ => None
          end
      end
  end.

(** The members of an object, added to [acc]. *)
Fixpoint parse_members (pv : string → option (pyval * string)) (fuel : nat)
    (s : string) (acc : list (string * pyval))
    : option (list (string * pyval) * string) :=
  match fuel with
  | O => None
  | S fuel' =>
      match skip_ws s with
      | String c rest =>
          if Ascii.eqb c dquote then
            match scan_string rest with
            | None => None
            | Some (key, rest1) =>
                match skip_ws rest1 with
                | String ":" rest2 =>
                    match pv rest2 with
                    | None => None
                    | Some (v, rest3) =>
                        match skip_ws rest3 with
                        | String "," rest4 =>
                            parse_members pv fuel' rest4 (dict_set acc key v)
                        | String "}" rest4 => Some (dict_set acc key v, rest4)
                        | _ => None
                        end
                    end
                | _ => None
                end
            end
          else None
      | EmptyString => None
      end
  end.

Fixpoint parse_value (fuel : nat) (s : string) : option (pyval * string) :=
  match fuel with
  | O => None
  | S fuel' =>
      let s := skip_ws s in
      if String.prefix "null" s then Some (PNone, str_drop 4 s)
      else if String.prefix "true" s then Some (PBool true, str_drop 4 s)
      else if String.prefix "false" s then Some (PBool false, str_drop 5 s)
      else
        match s with
        | EmptyString => None
        | String c rest =>
            if Ascii.eqb c dquote then
              match scan_string rest with
              | Some (body, rest') => Some (PStr body, rest')
              | None => None
              end
            else if Ascii.eqb c "[" then
              match skip_ws rest with
              | String "]" rest' => Some (PList [], rest')
              | _ =>
                  match parse_elems (parse_value fuel') (String.length rest) rest with
                  | Some (vs, rest') => Some (PList vs, rest')
                  | None => None
                  end
              end
            else if Ascii.eqb c "{" then
              match skip_ws rest with
              | String "}" rest' => Some (PDict [], rest')
              | _ =>
                  match parse_members (parse_value fuel') (String.length rest) rest [] with
                  | Some (kvs, rest') => Some (PDict kvs, rest')
                  | None => None
                  end
              end
            else parse_number s
        end
  end.

Definition ref_json_loads (body : string) : result pyval :=
  match parse_value (S (String.length body)) body with
  | Some (v, rest) =>
      if String.eqb (skip_ws rest) "" then Ok v
      else Raise (new_exc JSONDecodeError "Extra data")
  | None => Raise (new_exc JSONDecodeError "Expecting value")
  end.

Definition hex_digit (n : nat) : ascii :=
  nth n (list_ascii_of_string "0123456789abcdef") "0".

Definition repr_char (quote c : ascii) : string :=
  let n := nat_of_ascii c in
  if Ascii.eqb c quote || Ascii.eqb c backslash then String backslash (String c "")
  else if (n =? 9)%nat then String backslash "t"
  else if (n =? 10)%nat then String backslash "n"
  else if (n =? 13)%nat then String backslash "r"
  else if (n <? 32)%nat || (n =? 127)%nat then
    String backslash (String "x" (String (hex_digit (n / 16))
                                    (String (hex_digit (n mod 16)) "")))
  else String c "".

Definition ref_str_repr (s : string) : string :=
  let chars := list_ascii_of_string s in
  let quote :=
    if existsb (Ascii.eqb "'") chars && negb (existsb (Ascii.eqb dquote) chars)
    then dquote else "'" in
  String quote
    (String.concat "" (map (repr_char quote) chars) +:+ String quote "").

Definition ref_abspath (path : string) : string :=
  if String.prefix "/" path then path else "/home/user/" +:+ path.

Definition runtime : PyRuntime :=
  mk_PyRuntime ref_json_loads ref_str_repr ref_abspath.

End RefRuntime.

(** * Vocabulary of the properties *)

(** The value under [key] is there and is not an object. *)
Definition not_object_at (d : list (string * pyval)) (key : string) : Prop :=
  ∃ v, dict_lookup d key = Some v ∧ is_dict v = false.

(** [key] is absent, or holds an object. *)
Definition absent_or_object (d : list (string * pyval)) (key : string) : Prop :=
  dict_lookup d key = None ∨ ∃ c, dict_lookup d key = Some (PDict c).

(** [key] is absent, or holds an object that lacks [sub]. *)
Definition lacks_nested (d : list (string * pyval)) (key sub : string) : Prop :=
  dict_lookup d key = None ∨
  ∃ c, dict_lookup d key = Some (PDict c) ∧ dict_lookup c sub = None.

(** The error [from_json] raises for a value without [get]. *)
Definition invalid_structure (v : pyval) : pyexc :=
  new_exc ValueError
    ("Invalid data structure: '" +:+ type_name v +:+
     "' object has no attribute 'get'").

(** What [from_json] returns when nothing is in its way. *)
Definition mapped (d : list (string * pyval)) : UserData :=
  {| id := default PNone (dict_lookup d "id");
     name := default PNone (dict_lookup d "name");
     username := default PNone (dict_lookup d "username");
     email := default PNone (dict_lookup d "email");
     company_name :=
       match dict_lookup d "company" with
       | Some (PDict c) => default (PStr "N/A") (dict_lookup c "name")
       | _ => PStr "N/A"
       end;
     city :=
       match dict_lookup d "address" with
       | Some (PDict a) => default (PStr "N/A") (dict_lookup a "city")
       | _ => PStr "N/A"
       end |}.

(** The world after the progress lines of a fetch that returns [n]
    records. *)
Definition after_fetch (n : nat) (w : world) : world :=
  set_stdout
    ((w_stdout w +:+ ("Fetching data from " +:+ BASE_URL +:+ "...") +:+ newline)
     +:+ ("Successfully fetched " +:+ str_of_Z (Z.of_nat n) +:+ " records.")
     +:+ newline) w.

(** The world after the first progress line only. *)
Definition after_fetch_start (w : world) : world :=
  set_stdout
    (w_stdout w +:+ ("Fetching data from " +:+ BASE_URL +:+ "...") +:+ newline)
    w.

(** The world after the first line the driver prints. *)
Definition after_start (w : world) : world :=
  set_stdout
    (w_stdout w +:+ "Starting Portable DOC Generator (Zero-Dependency)..."
     +:+ newline) w.

(** The last line of a report of [n] records. *)
Definition footer_line (n : nat) : string :=
  "Total Users: " +:+ str_of_Z (Z.of_nat n).

(** The newlines inside the six field texts of a record. *)
Definition field_newlines (rt : PyRuntime) (user : UserData) : nat :=
  (count_newlines (py_str rt (id user)) +
   count_newlines (py_str rt (name user)) +
   count_newlines (py_str rt (username user)) +
   count_newlines (py_str rt (email user)) +
   count_newlines (py_str rt (company_name user)) +
   count_newlines (py_str rt (city user)))%nat.

(** The object of the scenario, decoded, and the record it maps to. *)
Definition leanne_json : pyval :=
  PDict [ ("id", PInt 1); ("name", PStr "Leanne Graham");
          ("username", PStr "Bret"); ("email", PStr "[email protected]");
          ("address", PDict [("city", PStr "Gwenborough")]);
          ("company", PDict [("name", PStr "Romaguera-Crona")]) ].

Definition leanne : UserData :=
  {| id := PInt 1; name := PStr "Leanne Graham"; username := PStr "Bret";
     email := PStr "[email protected]";
     company_name := PStr "Romaguera-Crona"; city := PStr "Gwenborough" |}.

(** A world in which the working directory cannot be written to. *)
Definition readonly_world : world :=
  {| w_urlopen := Ok (mk_response 200 (Ok "[]"));
     w_clock := λ _, mk_datetime 2026 11 3 17 24 5;
     w_ticks := 0;
     w_nodes := ∅;
     w_fault := λ op path,
       match op with
       | OpMakedirs | OpOpen =>
           Some (new_exc PermissionError
                   ("[Errno 13] Permission denied: '" +:+ path +:+ "'"))
       | OpWrite => None
       end;
     w_stdout := "";
     w_stdin := [] |}.

(** A world with an empty working directory in which nothing fails, the
    clock reads 2026-11-03 17:24:05, and the network gives [net]. *)
Definition sample_world (net : result response) : world :=
  {| w_urlopen := net;
     w_clock := λ _, mk_datetime 2026 11 3 17 24 5;
     w_ticks := 0;
     w_nodes := ∅;
     w_fault := λ _ _, None;
     w_stdout := "";
     w_stdin := [""] |}.

(** [s] between double quotes. *)
Definition json_quote (s : string) : string :=
  String "034" (s +:+ String "034" "").

(** The JSON text of the scenario. *)
Definition leanne_body : string :=
  "[{" +:+ json_quote "id" +:+ ":1," +:+
  json_quote "name" +:+ ":" +:+ json_quote "Leanne Graham" +:+ "," +:+
  json_quote "username" +:+ ":" +:+ json_quote "Bret" +:+ "," +:+
  json_quote "email" +:+ ":" +:+ json_quote "[email protected]" +:+ "," +:+
  json_quote "address" +:+ ":{" +:+ json_quote "city" +:+ ":" +:+
  json_quote "Gwenborough" +:+ "}," +:+
  json_quote "company" +:+ ":{" +:+ json_quote "name" +:+ ":" +:+
  json_quote "Romaguera-Crona" +:+ "}}]".

(** A world whose clock moves on by a second from one reading to the
    next. *)
Definition ticking_world : world :=
  {| w_urlopen := Ok (mk_response 200 (Ok "[]"));
     w_clock := λ k, mk_datetime 2026 11 3 17 24 (5 + k);
     w_ticks := 0;
     w_nodes := ∅;
     w_fault := λ _ _, None;
     w_stdout := "";
     w_stdin := [""] |}.

(** The [try] block of [fetch_data] (lines 65-77). *)
Definition fetch_block (rt : PyRuntime) : M (list UserData) :=
  response ← urlopen BASE_URL;
  if bool_decide (status response ≠ 200) then
    raise (new_exc APIConnectionError
             ("HTTP Error: " +:+ str_of_Z (status response)))
  else
    data ← lift (read response);
    data_list ← lift (json_loads rt data);
    items ← lift (py_iter data_list);
    users ← lift (fetch_loop items []);
    print ("Successfully fetched " +:+
           str_of_Z (Z.of_nat (length users)) +:+ " records.");;
    mret users.

(** What the [try] block of [fetch_data] (lines 65-77) comes to, given
    the answer of the network. *)
Definition fetch_outcome (rt : PyRuntime) (net : result response)
    : result (list UserData) :=
  response ← net;
  if bool_decide (status response ≠ 200) then
    Raise (new_exc APIConnectionError
             ("HTTP Error: " +:+ str_of_Z (status response)))
  else
    data ← read response;
    data_list ← json_loads rt data;
    items ← py_iter data_list;
    fetch_loop items [].

(** The exception that leaves [fetch_data] when its [try] block raises
    [e] (lines 79-84). *)
Definition leaving (e : pyexc) : pyexc :=
  if isinstance e URLError then
    new_exc APIConnectionError ("Network Error: " +:+ exc_reason e)
  else if isinstance e JSONDecodeError then
    new_exc DataParseError ("JSON Decode Error: " +:+ exc_str e)
  else if isinstance e Exception then
    new_exc AppError ("Unexpected Error: " +:+ exc_str e)
  else e.

(** The six texts that the report shows of a record. *)
Definition field_texts (rt : PyRuntime) (user : UserData) : list string :=
  [ py_str rt (id user); py_str rt (name user); py_str rt (username user);
    py_str rt (email user); py_str rt (company_name user);
    py_str rt (city user) ].

(** The keys that [from_json] looks up in its argument. *)
Definition mapper_keys : list string :=
  ["id"; "name"; "username"; "email"; "company"; "address"].


(** The [try] block of the driver (lines 128-137). *)
Definition main_body (rt : PyRuntime) : M unit :=
  users ← fetch_data rt;
  generator ← ReportGenerator_init "portable_reports";
  report_content ← generate_text_report rt generator users;
  t ← datetime_now;
  let filename := "Report_" +:+ strftime_filename t +:+ ".txt" in
  save_to_file rt generator report_content filename;;
  print "Done.".

(** The [except] clause of the driver (lines 139-141). *)
Definition main_except (e : pyexc) : option (M unit) :=
  if isinstance e Exception then
    Some (print ("Fatal Error: " +:+ exc_str e);;
          _ ← input "Press Enter to exit...";
          mret ())
  else None.

(** * Properties *)

(** Unfolds the layers of [M], so that a computation reduces once the
    answers of the world are known. *)
Ltac unfold_M :=
  unfold mbind, M_bind, try_catch, lift, print, urlopen, os_path_exists.

(** ** Strings *)

Lemma append_cons (c : ascii) (s t : string) :
  String c s +:+ t = String c (s +:+ t).
Proof. reflexivity. Qed.

Lemma append_nil_l (s : string) : "" +:+ s = s.
Proof. reflexivity. Qed.

Lemma append_nil_r (s : string) : s +:+ "" = s.
Proof.
  induction s as [|c s IH]; [done|]. by rewrite append_cons, IH.
Qed.

Lemma append_assoc (a b c : string) : (a +:+ b) +:+ c = a +:+ b +:+ c.
Proof.
  induction a as [|x a IH]; [done|]. by rewrite !append_cons, IH.
Qed.

Lemma eqb_refl_true (s : string) : String.eqb s s = true.
Proof. by apply String.eqb_eq. Qed.

Lemma endswith_app (p s : string) : endswith (p +:+ s) s = true.
Proof.
  induction p as [|c p IH]; rewrite ?append_nil_l, ?append_cons; cbn.
  - destruct s; cbn; [done|]. by rewrite Ascii.eqb_refl, eqb_refl_true.
  - rewrite IH. by rewrite orb_true_r.
Qed.

Lemma endswith_inv (s suffix : string) :
  endswith s suffix = true → ∃ p, s = p +:+ suffix.
Proof.
  induction s as [|c s IH]; cbn [endswith].
  - rewrite orb_false_r. intros H%String.eqb_eq. by exists "".
  - intros [H%String.eqb_eq|H]%orb_true_iff.
    + by exists "".
    + destruct (IH H) as [p ->]. by exists (String c p).
Qed.

Lemma count_newlines_app (a b : string) :
  count_newlines (a +:+ b) = (count_newlines a + count_newlines b)%nat.
Proof.
  induction a as [|c a IH]; [done|]. rewrite append_cons; cbn. rewrite IH. lia.
Qed.

Lemma count_newlines_repeat (s : string) (n : nat) :
  count_newlines s = 0%nat → count_newlines (str_repeat s n) = 0%nat.
Proof.
  intros H. induction n as [|n IH]; cbn; [done|].
  rewrite count_newlines_app. lia.
Qed.

Lemma count_newlines_uint (d : Decimal.uint) :
  count_newlines (NilEmpty.string_of_uint d) = 0%nat.
Proof. induction d; cbn; done. Qed.

Lemma count_newlines_str_of_Z (z : Z) : count_newlines (str_of_Z z) = 0%nat.
Proof.
  unfold str_of_Z, NilZero.string_of_int, NilZero.string_of_uint.
  destruct (Z.to_int z) as [d|d]; destruct d; cbn;
    try apply count_newlines_uint; done.
Qed.

Lemma str_of_Z_nonempty (z : Z) : str_of_Z z ≠ "".
Proof.
  unfold str_of_Z, NilZero.string_of_int, NilZero.string_of_uint.
  destruct (Z.to_int z) as [d|d]; destruct d; cbn; done.
Qed.

Create Rewrite HintDb newlines.
#[global] Hint Rewrite count_newlines_app count_newlines_str_of_Z : newlines.

Lemma count_newlines_zero_pad (width n : nat) :
  count_newlines (zero_pad width n) = 0%nat.
Proof.
  unfold zero_pad. autorewrite with newlines.
  by rewrite count_newlines_repeat.
Qed.

#[global] Hint Rewrite count_newlines_zero_pad : newlines.

Lemma count_newlines_strftime_report (t : datetime) :
  count_newlines (strftime_report t) = 0%nat.
Proof.
  unfold strftime_report.
  by autorewrite with newlines.
Qed.

#[global] Hint Rewrite count_newlines_strftime_report : newlines.

(** A string that ends with a newline has one. *)
Lemma endswith_newline_count (s : string) :
  endswith s newline = true → (0 < count_newlines s)%nat.
Proof.
  intros [p ->]%endswith_inv. rewrite count_newlines_app.
  change (count_newlines newline) with 1%nat. lia.
Qed.

(** Whether [p +:+ s] ends with a newline is decided by [s], when [s] is
    not empty. *)
Lemma endswith_newline_app (p s : string) :
  s ≠ "" → endswith (p +:+ s) newline = endswith s newline.
Proof.
  intros Hs. induction p as [|c p IH]; [done|].
  rewrite append_cons; cbn. rewrite IH.
  destruct (p +:+ s) as [|x r] eqn:E.
  - destruct p; [by rewrite append_nil_l in E|].
    rewrite append_cons in E. discriminate E.
  - by destruct (Ascii.eqb c ("010"%char)).
Qed.

Lemma length_splitlines (s : string) :
  length (splitlines s) = S (count_newlines s).
Proof.
  unfold splitlines. induction s as [|c s IH]; cbn; [done|].
  destruct (Ascii.eqb c ("010"%char)); cbn; [by rewrite IH|].
  destruct (str_split _ s); cbn in *; lia.
Qed.

(** Splitting the text of a line without newline, a newline and more
    text gives the line and then the split of the rest. *)
Lemma splitlines_cons (line rest : string) :
  count_newlines line = 0%nat →
  splitlines (line +:+ newline +:+ rest) = line :: splitlines rest.
Proof.
  unfold splitlines. induction line as [|c line IH]; [done|].
  rewrite append_cons; cbn.
  destruct (Ascii.eqb c ("010"%char)); [done|].
  intros H. by rewrite (IH H).
Qed.

Lemma splitlines_one (line : string) :
  count_newlines line = 0%nat → splitlines line = [line].
Proof.
  unfold splitlines. induction line as [|c line IH]; cbn; [done|].
  destruct (Ascii.eqb c ("010"%char)); [done|].
  intros H. by rewrite (IH H).
Qed.

Lemma str_join_cons (sep x y : string) (rest : list string) :
  str_join sep (x :: y :: rest) = x +:+ sep +:+ str_join sep (y :: rest).
Proof. reflexivity. Qed.

(** [split] undoes [join] on lines that hold no newline. *)
Lemma splitlines_join (lines : list string) :
  lines ≠ [] → Forall (λ l, count_newlines l = 0%nat) lines →
  splitlines (str_join newline lines) = lines.
Proof.
  induction lines as [|x [|y rest] IH]; intros Hne Hall; [done| |].
  - cbn. apply splitlines_one. by inversion Hall.
  - rewrite str_join_cons. inversion Hall; subst.
    rewrite splitlines_cons by done. f_equal. by apply IH.
Qed.

(** The newlines of a joined text: one between two lines, and those the
    lines hold. *)
Lemma count_newlines_join (lines : list string) :
  lines ≠ [] →
  count_newlines (str_join newline lines) =
  (length lines - 1 + sum_list (map count_newlines lines))%nat.
Proof.
  induction lines as [|x [|y rest] IH]; intros Hne; [done| |].
  - cbn. lia.
  - rewrite str_join_cons, !count_newlines_app, IH by done.
    change (count_newlines newline) with 1%nat.
    cbn [length map sum_list sum_list_with]. unfold Datatypes.id. lia.
Qed.

(** A joined text ends with its last line. *)
Lemma str_join_snoc (sep : string) (lines : list string) (last : string) :
  ∃ p, str_join sep (lines ++ [last]) = p +:+ last.
Proof.
  induction lines as [|x [|y rest] IH].
  - by exists "".
  - exists (x +:+ sep). cbn. by rewrite append_assoc.
  - destruct IH as [p Hp]. exists (x +:+ sep +:+ p).
    change ((x :: y :: rest) ++ [last]) with (x :: y :: (rest ++ [last])).
    rewrite str_join_cons.
    change (y :: rest ++ [last]) with ((y :: rest) ++ [last]).
    by rewrite Hp, !append_assoc.
Qed.

(** ** The record mapper *)

Lemma absent_or_object_dec d key :
  absent_or_object d key ∨ not_object_at d key.
Proof.
  unfold absent_or_object, not_object_at.
  destruct (dict_lookup d key) as [v|] eqn:E; [|by left; left].
  destruct v; try (right; eexists; split; [reflexivity|reflexivity]).
  left; right; eauto.
Qed.

Lemma absent_or_object_not d key :
  absent_or_object d key → not_object_at d key → False.
Proof.
  intros [E|[c E]] [v [E' Hv]]; rewrite E in E'; [done|].
  by injection E' as <-.
Qed.

Lemma from_json_not_dict data :
  is_dict data = false → from_json data = Raise (invalid_structure data).
Proof. by destruct data. Qed.

Lemma from_json_company_not_object d v :
  dict_lookup d "company" = Some v → is_dict v = false →
  from_json (PDict d) = Raise (invalid_structure v).
Proof.
  intros E Hv. unfold from_json; cbn. rewrite E; cbn.
  by destruct v.
Qed.

Lemma from_json_address_not_object d v :
  absent_or_object d "company" →
  dict_lookup d "address" = Some v → is_dict v = false →
  from_json (PDict d) = Raise (invalid_structure v).
Proof.
  intros Hc E Hv. unfold from_json; cbn.
  destruct Hc as [Ec|[c Ec]]; rewrite Ec; cbn; rewrite E; cbn; by destruct v.
Qed.

Lemma from_json_object d :
  absent_or_object d "company" → absent_or_object d "address" →
  from_json (PDict d) = Ok (mapped d).
Proof.
  intros [Ec|[c Ec]] [Ea|[a Ea]]; unfold from_json, mapped; cbn;
    rewrite Ec; cbn; rewrite Ea; reflexivity.
Qed.

Lemma from_json_cases data :
  (∃ d, data = PDict d ∧ absent_or_object d "company" ∧
        absent_or_object d "address" ∧ from_json data = Ok (mapped d)) ∨
  (∃ v, from_json data = Raise (invalid_structure v)).
Proof.
  destruct (is_dict data) eqn:Hd.
  - destruct data as [| | | | | |d]; try discriminate.
    destruct (absent_or_object_dec d "company") as [Hc|[v [E Hv]]].
    + destruct (absent_or_object_dec d "address") as [Ha|[v [E Hv]]].
      * left. exists d. eauto using from_json_object.
      * right. exists v. by apply from_json_address_not_object.
    + right. exists v. by apply from_json_company_not_object.
  - right. exists data. by apply from_json_not_dict.
Qed.

(** C3, as stated, fails: a [company] that is present but is not an object
    (here a string) makes the mapper raise, so no record with the sentinel
    comes out. *)
Lemma C3_company_not_object_raises :
  let d := [("id", PInt 1); ("company", PStr "Acme")] in
  not_object_at d "company" ∧
  ¬ (∃ u, from_json (PDict d) = Ok u ∧ company_name u = PStr "N/A").
Proof.
  split.
  - exists (PStr "Acme"). by split.
  - intros [u [H _]]. discriminate H.
Qed.

(** C3, amended: when [company] is absent, or is an object that lacks
    [name], the mapped record's [company_name] is the sentinel ["N/A"], and
    likewise [city] for [address] and [city]; the record is produced
    whenever [company] and [address] are each absent or an object. When
    [company] or [address] is present but is not an object, the mapper
    raises a [ValueError] instead. *)
Theorem C3_sentinel_for_missing_nested (d : list (string * pyval)) :
  (absent_or_object d "company" → absent_or_object d "address" →
   ∃ u, from_json (PDict d) = Ok u ∧
        (lacks_nested d "company" "name" → company_name u = PStr "N/A") ∧
        (lacks_nested d "address" "city" → city u = PStr "N/A")) ∧
  (not_object_at d "company" ∨ not_object_at d "address" →
   ∃ e, from_json (PDict d) = Raise e ∧ exc_type e = ValueError).
Proof.
  split.
  - intros Hc Ha. exists (mapped d). split; [by apply from_json_object|].
    split; intros [E|[c [E En]]]; cbn; rewrite E; try rewrite En; reflexivity.
  - intros Hbad.
    destruct (from_json_cases (PDict d)) as [(d' & [= <-] & Hc & Ha & _)|[v E]].
    + destruct Hbad; exfalso; eauto using absent_or_object_not.
    + exists (invalid_structure v). by split.
Qed.

(** An object whose [company] lacks [name] and that has no [address]. *)
Lemma C3_sentinel_witness :
  let d := [("id", PInt 7); ("company", PDict [("bs", PStr "x")])] in
  ∃ u, from_json (PDict d) = Ok u ∧
       company_name u = PStr "N/A" ∧ city u = PStr "N/A".
Proof.
  intros d.
  destruct (proj1 (C3_sentinel_for_missing_nested d)) as (u & Hu & Hc & Ha).
  - right. by exists [("bs", PStr "x")].
  - by left.
  - exists u. split; [exact Hu|]. split.
    + apply Hc. right. by exists [("bs", PStr "x")].
    + apply Ha. by left.
Defined.

(** C5, as stated, fails: the mapper also rejects an object whose
    [company] is [null]. *)
Lemma C5_object_rejected :
  let data := PDict [("id", PInt 1); ("company", PNone)] in
  is_dict data = true ∧ ∃ e, from_json data = Raise e.
Proof. split; [reflexivity|]. eexists. reflexivity. Qed.

(** C5, amended: the mapper fails exactly when the top-level input is not
    an object, or is an object whose [company] or [address] is present but
    is not an object; what it raises is a [ValueError] (no [DataParseError]).
    For an object it accepts, [id], [name], [username] and [email] are the
    values under these keys, and [None] for each key that is absent. *)
Theorem C5_mapper_rejections (data : pyval) :
  ((∃ e, from_json data = Raise e) ↔
   (is_dict data = false ∨
    ∃ d, data = PDict d ∧
         (not_object_at d "company" ∨ not_object_at d "address"))) ∧
  (∀ e, from_json data = Raise e →
        exc_type e = ValueError ∧ isinstance e DataParseError = false) ∧
  (∀ d u, data = PDict d → from_json data = Ok u →
        id u = default PNone (dict_lookup d "id") ∧
        name u = default PNone (dict_lookup d "name") ∧
        username u = default PNone (dict_lookup d "username") ∧
        email u = default PNone (dict_lookup d "email")).
Proof.
  destruct (from_json_cases data) as [(d & -> & Hc & Ha & E)|[v E]].
  - rewrite E. split; [split|split].
    + intros [e He]. discriminate He.
    + intros [Hd|(d' & [= <-] & [H|H])]; [discriminate Hd| |];
        exfalso; eauto using absent_or_object_not.
    + intros e He. discriminate He.
    + intros d' u [= <-] [= <-]. by repeat split.
  - rewrite E. split; [split|split].
    + intros _. destruct (is_dict data) eqn:Hd; [|by left].
      right. destruct data as [| | | | | |d]; try discriminate Hd.
      exists d. split; [reflexivity|].
      destruct (absent_or_object_dec d "company") as [Hc|Hc]; [|by left].
      destruct (absent_or_object_dec d "address") as [Ha|Ha]; [|by right].
      rewrite (from_json_object d Hc Ha) in E. discriminate E.
    + intros _. by eexists.
    + intros e [= <-]. by split.
    + intros d u _ Hu. discriminate Hu.
Qed.

(** An object with a [name] only. *)
Lemma C5_mapper_witness :
  let data := PDict [("name", PStr "Ann")] in
  ∃ u, from_json data = Ok u ∧ id u = PNone ∧ name u = PStr "Ann" ∧
       username u = PNone ∧ email u = PNone.
Proof.
  intros data. exists (mapped [("name", PStr "Ann")]).
  split; [reflexivity|].
  exact (proj2 (proj2 (C5_mapper_rejections data))
           [("name", PStr "Ann")] _ eq_refl eq_refl).
Defined.

(** ** The fetch client *)

Lemma fetch_loop_ok items : ∀ acc users,
  Forall2 (λ item u, from_json item = Ok u) items users →
  fetch_loop items acc = Ok (acc ++ users).
Proof.
  induction items as [|item rest IH]; intros acc users H; inversion H; subst.
  - cbn. by rewrite app_nil_r.
  - cbn. rewrite H2. rewrite (IH _ _ H4). by rewrite <- app_assoc.
Qed.

Lemma fetch_loop_raise items : ∀ acc e,
  fetch_loop items acc = Raise e →
  ∃ item, item ∈ items ∧ from_json item = Raise e.
Proof.
  induction items as [|item rest IH]; intros acc e H; cbn in H; [done|].
  destruct (from_json item) as [u|e'] eqn:E.
  - destruct (IH _ _ H) as (it & Hin & Hit). exists it. split; [by right|done].
  - injection H as <-. exists item. split; [by left|done].
Qed.

Lemma all_mapped items :
  Forall (λ item, ∃ u, from_json item = Ok u) items →
  ∃ users, Forall2 (λ item u, from_json item = Ok u) items users.
Proof.
  induction 1 as [|item rest [u Hu] _ [users IH]].
  - exists []. constructor.
  - exists (u :: users). by constructor.
Qed.

(** What [fetch_data] does once the response has arrived with status 200
    and its body has been read. *)
Lemma fetch_data_decoded rt w resp body :
  w_urlopen w = Ok resp → status resp = 200 → read resp = Ok body →
  fetch_data rt w =
  match (data_list ← json_loads rt body;
         items ← py_iter data_list;
         fetch_loop items []) with
  | Ok users => (Ok users, after_fetch (length users) w)
  | Raise e =>
      match fetch_data_except e with
      | Some handler => handler (after_fetch_start w)
      | None => (Raise e, after_fetch_start w)
      end
  end.
Proof.
  intros Hu Hs Hr.
  unfold fetch_data; unfold_M; cbn.
  rewrite Hu, Hs; cbn. rewrite Hr.
  destruct (json_loads rt body) as [data_list|e]; cbn; [|done].
  destruct (py_iter data_list) as [items|e]; cbn; [|done].
  destruct (fetch_loop items []) as [users|e]; cbn; done.
Qed.

(** C6: when the body decodes to an array whose elements all map, the
    fetch returns as many records as the array has elements, the i-th
    record being the mapping of the i-th element. *)
Theorem C6_fetch_maps_in_order rt w resp body items :
  w_urlopen w = Ok resp → status resp = 200 → read resp = Ok body →
  json_loads rt body = Ok (PList items) →
  Forall (λ item, ∃ u, from_json item = Ok u) items →
  ∃ users w',
    fetch_data rt w = (Ok users, w') ∧
    length users = length items ∧
    Forall2 (λ item u, from_json item = Ok u) items users ∧
    (∀ i, Ok <$> (users !! i) = from_json <$> (items !! i)).
Proof.
  intros Hu Hs Hr Hj Hall.
  destruct (all_mapped items Hall) as [users Hmap].
  exists users, (after_fetch (length users) w).
  split; [|split; [|split]].
  - rewrite (fetch_data_decoded rt w resp body Hu Hs Hr), Hj. cbn.
    by rewrite (fetch_loop_ok items [] users Hmap).
  - symmetry. by eapply Forall2_length.
  - exact Hmap.
  - intros i. clear -Hmap. revert i.
    induction Hmap as [|item u rest users' H _ IH]; intros [|i]; cbn; try done.
    by rewrite H.
Qed.

(** What [fetch_data] does with a response whose status is not 200: the
    [APIConnectionError] raised at line 67 is caught by the last [except]
    clause of the same [try] and raised again as an [AppError]. *)
Lemma fetch_data_non200 rt w resp :
  w_urlopen w = Ok resp → status resp ≠ 200 →
  fetch_data rt w =
  (Raise (new_exc AppError
            ("Unexpected Error: HTTP Error: " +:+ str_of_Z (status resp))),
   after_fetch_start w).
Proof.
  intros Hu Hs.
  unfold fetch_data; unfold_M; cbn.
  rewrite Hu. by rewrite bool_decide_eq_true_2.
Qed.

(** What [fetch_data] does when [urlopen] raises a [URLError]. *)
Lemma fetch_data_urlerror rt w e :
  w_urlopen w = Raise e → isinstance e URLError = true →
  fetch_data rt w =
  (Raise (new_exc APIConnectionError ("Network Error: " +:+ exc_reason e)),
   after_fetch_start w).
Proof.
  intros Hu He.
  unfold fetch_data; unfold_M; cbn.
  rewrite Hu. unfold fetch_data_except. by rewrite He.
Qed.

(** The clause that handles [e] raises a [DataParseError] exactly when [e]
    is a [JSONDecodeError]. *)
Lemma fetch_data_except_parse e handler w r w' :
  fetch_data_except e = Some handler → handler w = (Raise r, w') →
  isinstance r DataParseError = isinstance e JSONDecodeError.
Proof.
  unfold fetch_data_except.
  destruct e as [[] msg reason]; cbn; intros [= <-] [= <- _]; reflexivity.
Qed.

Lemma fetch_data_except_none e :
  fetch_data_except e = None → isinstance e DataParseError = false.
Proof. unfold fetch_data_except. by destruct e as [[] msg reason]. Qed.

Lemma fetch_data_except_raises e handler w :
  fetch_data_except e = Some handler → ∃ r, handler w = (Raise r, w).
Proof.
  unfold fetch_data_except.
  repeat case_match; intros [= <-]; by eexists.
Qed.

Lemma py_iter_raise v e : py_iter v = Raise e → exc_type e = TypeError.
Proof. destruct v; cbn; intros [= <-]; reflexivity. Qed.

Lemma from_json_raise data e : from_json data = Raise e → exc_type e = ValueError.
Proof.
  destruct (from_json_cases data) as [(d & _ & _ & _ & E)|[v E]];
    rewrite E; intros [= <-]; reflexivity.
Qed.

(** A fetch never touches the file system. *)
Lemma fetch_data_nodes rt w : w_nodes (fetch_data rt w).2 = w_nodes w.
Proof.
  unfold fetch_data, mbind, M_bind, try_catch, print, urlopen, lift,
    fetch_data_except, raise, mret, M_ret; cbn.
  repeat (case_match; simplify_eq; cbn in *; try done).
Qed.

(** ** The driver *)

(** When the fetch raises, the driver writes no file: the file system is
    left as it was, and for an [Exception] the console gets the one
    [Fatal Error] line and the prompt. *)
Lemma main_fetch_raises rt w e w1 :
  fetch_data rt (after_start w) = (Raise e, w1) →
  w_nodes (main rt w).2 = w_nodes w ∧
  (isinstance e Exception = true →
   w_stdout (main rt w).2 =
   (w_stdout w1 +:+ ("Fatal Error: " +:+ exc_str e) +:+ newline)
   +:+ "Press Enter to exit...").
Proof.
  intros H.
  assert (Hn : w_nodes w1 = w_nodes w).
  { change w1 with ((Raise (A:=list UserData) e, w1).2). rewrite <- H.
    by rewrite fetch_data_nodes. }
  unfold main; unfold_M; cbn.
  fold (after_start w). rewrite H.
  destruct (isinstance e Exception); cbn.
  - unfold input; cbn. destruct (w_stdin w1); cbn; by split.
  - split; [exact Hn|done].
Qed.

(** C1: a response that arrives with status 204 makes [fetch_data] raise,
    but what leaves it is an [AppError] with the text
    [Unexpected Error: HTTP Error: 204], which is not an
    [APIConnectionError]; the driver then writes no file. *)
Theorem C1_non200_leaves_as_AppError rt w body :
  let w204 := mk_world (Ok (mk_response 204 body)) (w_clock w) (w_ticks w)
                (w_nodes w) (w_fault w) (w_stdout w) (w_stdin w) in
  ∃ e w', fetch_data rt w204 = (Raise e, w') ∧
    e = new_exc AppError "Unexpected Error: HTTP Error: 204" ∧
    isinstance e APIConnectionError = false ∧
    w_nodes (main rt w204).2 = w_nodes w.
Proof.
  intros w204. eexists _, _. split; [|split; [reflexivity|split; [reflexivity|]]].
  - by apply (fetch_data_non200 rt w204 (mk_response 204 body)).
  - by apply (main_fetch_raises rt w204 _ _
                (fetch_data_non200 rt (after_start w204)
                   (mk_response 204 body) eq_refl ltac:(done))).
Qed.

(** C4, as stated, fails: the body [[1]] is valid JSON but no array of
    objects, and the fetch fails with an [AppError] that is no
    [DataParseError]; the body [{}] is no array either, and the fetch
    returns no records without failing. *)
Lemma C4_valid_json_not_parse_error :
  let rt := RefRuntime.runtime in
  let world_of body :=
    mk_world (Ok (mk_response 200 (Ok body)))
      (λ _, mk_datetime 2026 11 3 17 24 5) 0 ∅ (λ _ _, None) "" [] in
  (json_loads rt "[1]" = Ok (PList [PInt 1]) ∧
   ∃ e w', fetch_data rt (world_of "[1]") = (Raise e, w') ∧
           exc_type e = AppError ∧ isinstance e DataParseError = false) ∧
  (json_loads rt "{}" = Ok (PDict []) ∧
   ∃ w', fetch_data rt (world_of "{}") = (Ok [], w')).
Proof.
  split; (split; [reflexivity|]).
  - eexists _, _. split; [reflexivity|]. by split.
  - eexists. reflexivity.
Qed.

(** C4, amended: for a response whose body has been read, [fetch_data]
    fails with a [DataParseError] exactly when the status is 200 and
    [json.loads] raises a [JSONDecodeError] on the body (whatever else the
    decoder raises, a [UnicodeDecodeError] for one, and whatever it
    accepts, gives no [DataParseError]); in particular a body [not json],
    on which the decoder raises a [JSONDecodeError], yields a
    [DataParseError], and the driver then writes no file. *)
Theorem C4_parse_error_iff_decode_error rt w resp body :
  w_urlopen w = Ok resp → read resp = Ok body →
  ((∃ e w', fetch_data rt w = (Raise e, w') ∧
            isinstance e DataParseError = true) ↔
   (status resp = 200 ∧
    ∃ e0, json_loads rt body = Raise e0 ∧
          isinstance e0 JSONDecodeError = true)) ∧
  (status resp = 200 → body = "not json" →
   (∃ e0, json_loads rt "not json" = Raise e0 ∧
          isinstance e0 JSONDecodeError = true) →
   (∃ e w', fetch_data rt w = (Raise e, w') ∧ exc_type e = DataParseError) ∧
   w_nodes (main rt w).2 = w_nodes w).
Proof.
  intros Hu Hr.
  assert (Hdec : status resp = 200 → ∀ e0,
            json_loads rt body = Raise e0 →
            isinstance e0 JSONDecodeError = true →
            ∀ w0, w_urlopen w0 = w_urlopen w →
            fetch_data rt w0 =
            (Raise (new_exc DataParseError
                      ("JSON Decode Error: " +:+ exc_str e0)),
             after_fetch_start w0)).
  { intros Hs e0 Hj He0 w0 Hw0.
    rewrite (fetch_data_decoded rt w0 resp body); [|congruence|done|done].
    rewrite Hj; cbn. unfold fetch_data_except.
    destruct e0 as [[] msg reason]; try discriminate He0. reflexivity. }
  split; [split|].
  - intros (e & w' & Hf & He).
    destruct (decide (status resp = 200)) as [Hs|Hs].
    + split; [exact Hs|].
      rewrite (fetch_data_decoded rt w resp body Hu Hs Hr) in Hf.
      destruct (json_loads rt body) as [data_list|e0] eqn:Hj; cbn in Hf.
      * exfalso.
        destruct (py_iter data_list) as [items|e1] eqn:Hi; cbn in Hf.
        -- destruct (fetch_loop items []) as [users|e1] eqn:Hl; [done|].
           destruct (fetch_loop_raise _ _ _ Hl) as (item & _ & Hitem).
           apply from_json_raise in Hitem.
           destruct e1 as [c msg reason]; cbn in Hitem; subst c.
           cbn in Hf. injection Hf as <- _. discriminate He.
        -- apply py_iter_raise in Hi.
           destruct e1 as [c msg reason]; cbn in Hi; subst c.
           cbn in Hf. injection Hf as <- _. discriminate He.
      * exists e0. split; [reflexivity|].
        destruct (fetch_data_except e0) as [handler|] eqn:Hh.
        -- by rewrite <- (fetch_data_except_parse _ _ _ _ _ Hh Hf).
        -- injection Hf as <- _. apply fetch_data_except_none in Hh. congruence.
    + rewrite (fetch_data_non200 rt w resp Hu Hs) in Hf.
      injection Hf as <- _. discriminate He.
  - intros (Hs & e0 & Hj & He0).
    eexists _, _. split; [by apply (Hdec Hs e0 Hj He0 w)|reflexivity].
  - intros Hs -> (e0 & Hj & He0). split.
    + eexists _, _. split; [by apply (Hdec Hs e0 Hj He0 w)|reflexivity].
    + by apply (main_fetch_raises rt w _ _
                  (Hdec Hs e0 Hj He0 (after_start w) eq_refl)).
Qed.

(** ** The report renderer *)

Lemma foldl_append {A B : Type} (f : B → list A) (users : list B) :
  ∀ acc, foldl (λ lines user, lines ++ f user) acc users
         = acc ++ concat (map f users).
Proof.
  induction users as [|u users IH]; intros acc; cbn.
  - by rewrite app_nil_r.
  - by rewrite IH, <- app_assoc.
Qed.

(** The loop leaves the header, then the block of each record in order,
    and the footer closes the list. *)
Lemma report_lines_eq rt t users :
  report_lines rt t users =
  header_lines t ++ concat (map (user_lines rt) users)
  ++ [footer_line (length users)].
Proof. unfold report_lines. by rewrite foldl_append, <- app_assoc. Qed.

Lemma generate_text_report_eq rt self users w :
  generate_text_report rt self users w =
  (Ok (str_join newline (report_lines rt (w_clock w (w_ticks w)) users)),
   set_ticks (S (w_ticks w)) w).
Proof. reflexivity. Qed.

Lemma length_user_blocks rt users :
  length (concat (map (user_lines rt) users)) = (7 * length users)%nat.
Proof. induction users as [|u users IH]; cbn in *; [done|]. lia. Qed.

Lemma length_report_lines rt t users :
  length (report_lines rt t users) = (6 + 7 * length users)%nat.
Proof.
  rewrite report_lines_eq, !length_app, length_user_blocks. cbn. lia.
Qed.

Lemma report_lines_nonempty rt t users : report_lines rt t users ≠ [].
Proof. rewrite report_lines_eq. unfold header_lines. discriminate. Qed.

Lemma header_lines_no_newline t :
  Forall (λ l, count_newlines l = 0%nat) (header_lines t).
Proof.
  repeat constructor; try reflexivity.
  by autorewrite with newlines.
Qed.

Lemma footer_line_no_newline n : count_newlines (footer_line n) = 0%nat.
Proof.
  unfold footer_line. by autorewrite with newlines.
Qed.

Lemma footer_line_nonempty n : footer_line n ≠ "".
Proof. unfold footer_line. rewrite append_cons. discriminate. Qed.

Lemma user_lines_newlines rt u :
  sum_list (map count_newlines (user_lines rt u)) = field_newlines rt u.
Proof.
  unfold user_lines, field_newlines. cbn [map sum_list sum_list_with].
  unfold Datatypes.id. rewrite !count_newlines_app.
  change (count_newlines (str_repeat "-" 30)) with 0%nat.
  cbn. lia.
Qed.

Lemma user_lines_no_newline rt u :
  field_newlines rt u = 0%nat →
  Forall (λ l, count_newlines l = 0%nat) (user_lines rt u).
Proof.
  unfold field_newlines. intros H.
  repeat constructor; rewrite ?count_newlines_app; cbn; lia.
Qed.

Lemma user_blocks_newlines rt users :
  sum_list (map count_newlines (concat (map (user_lines rt) users))) =
  sum_list (map (field_newlines rt) users).
Proof.
  induction users as [|u users IH]; [done|].
  cbn [map concat]. rewrite map_app, sum_list_with_app, user_lines_newlines, IH.
  reflexivity.
Qed.

Lemma sum_newlines_zero (lines : list string) :
  Forall (λ l, count_newlines l = 0%nat) lines →
  sum_list (map count_newlines lines) = 0%nat.
Proof.
  induction 1 as [|x lines Hx _ IH]; [done|].
  cbn [map sum_list sum_list_with]. fold (sum_list (map count_newlines lines)).
  rewrite IH, Hx. reflexivity.
Qed.

(** The lines before the first one that may hold a newline come out of
    [split] as they went into [join]. *)
Lemma splitlines_join_prefix (pre rest : list string) :
  Forall (λ l, count_newlines l = 0%nat) pre → rest ≠ [] →
  splitlines (str_join newline (pre ++ rest)) =
  pre ++ splitlines (str_join newline rest).
Proof.
  intros Hpre Hrest. induction Hpre as [|x pre Hx _ IH]; [done|].
  cbn [app]. destruct (pre ++ rest) as [|y more] eqn:E.
  - by apply app_eq_nil in E as [_ ->].
  - rewrite str_join_cons, splitlines_cons by done. by rewrite IH.
Qed.

(** The block of the i-th record sits at lines 5+7i to 5+7i+6. *)
Lemma user_block_at rt (rest : list string) users : ∀ i u,
  users !! i = Some u →
  take 7 (drop (7 * i) (concat (map (user_lines rt) users) ++ rest))
  = user_lines rt u.
Proof.
  induction users as [|u0 users IH]; intros i u Hi; [done|].
  destruct i as [|i].
  - injection Hi as ->. reflexivity.
  - replace (7 * S i)%nat with (7 + 7 * i)%nat by lia.
    rewrite <- drop_drop. cbn [map concat].
    change (drop 7 ((user_lines rt u0 ++ concat (map (user_lines rt) users)) ++ rest))
      with (concat (map (user_lines rt) users) ++ rest).
    by apply IH.
Qed.

Lemma report_text_no_trailing_newline rt t users :
  endswith (str_join newline (report_lines rt t users)) newline = false.
Proof.
  rewrite report_lines_eq, app_assoc.
  destruct (str_join_snoc newline
              (header_lines t ++ concat (map (user_lines rt) users))
              (footer_line (length users))) as [p ->].
  rewrite endswith_newline_app by apply footer_line_nonempty.
  destruct (endswith (footer_line (length users)) newline) eqn:E; [|done].
  apply endswith_newline_count in E.
  rewrite footer_line_no_newline in E. lia.
Qed.

Lemma report_text_newlines rt t users :
  count_newlines (str_join newline (report_lines rt t users)) =
  (5 + 7 * length users + sum_list (map (field_newlines rt) users))%nat.
Proof.
  rewrite count_newlines_join, length_report_lines.
  - rewrite report_lines_eq, !map_app, !sum_list_with_app.
    fold (sum_list (map count_newlines (header_lines t))).
    rewrite (sum_newlines_zero (header_lines t)).
    + fold (sum_list (map count_newlines
                        (concat (map (user_lines rt) users)))).
      rewrite user_blocks_newlines. cbn [map sum_list_with].
      rewrite footer_line_no_newline. unfold Datatypes.id. lia.
    + apply header_lines_no_newline.
  - apply report_lines_nonempty.
Qed.

Lemma report_lines_no_newline rt t users :
  Forall (λ u, field_newlines rt u = 0%nat) users →
  Forall (λ l, count_newlines l = 0%nat) (report_lines rt t users).
Proof.
  intros H. rewrite report_lines_eq.
  apply Forall_app; split; [apply header_lines_no_newline|].
  apply Forall_app; split.
  - induction H as [|u users Hu _ IH]; cbn [map concat]; [constructor|].
    apply Forall_app; split; [by apply user_lines_no_newline|exact IH].
  - repeat constructor. apply footer_line_no_newline.
Qed.

(** C10, as stated, fails: a record whose name holds a newline, as the
    JSON string ["Ann\nLee"] decodes to, is rendered on 14 lines, not
    on 6 + 7 * 1 = 13. *)
Lemma C10_newline_in_field :
  let user :=
    mk_UserData (PInt 1) (PStr ("Ann" +:+ newline +:+ "Lee")) (PStr "ann")
      (PStr "ann@example.org") (PStr "N/A") (PStr "N/A") in
  let text :=
    str_join newline
      (report_lines RefRuntime.runtime (mk_datetime 2026 11 3 17 24 5) [user]) in
  from_json (PDict [("id", PInt 1);
                    ("name", PStr ("Ann" +:+ newline +:+ "Lee"));
                    ("username", PStr "ann");
                    ("email", PStr "ann@example.org")]) = Ok user ∧
  length (splitlines text) = 14%nat ∧
  length (splitlines text) ≠ (6 + 7 * length [user])%nat.
Proof. split; [reflexivity|]. split; [reflexivity|]. vm_compute. lia. Qed.

(** C10, amended: the report is the newline-join of exactly 6 + 7n
    items: the 5 header lines (60-column [=] banner, 60-column centered
    title, [=] banner, Generated-on line, 60-column [-] separator), then
    for each record in order its six labeled field lines and a 30-column
    [-] separator, then the footer [Total Users: n]; the text never ends
    with a newline. It has 6 + 7n newline-separated lines, these items,
    when no field text holds a newline, and in general one more line for
    each newline inside a field text. *)
Theorem C10_report_layout rt t users :
  let lines := report_lines rt t users in
  let text := str_join newline lines in
  let n := length users in
  length lines = (6 + 7 * n)%nat ∧
  take 5 lines =
    [ str_repeat "=" 60; format_center "PORTABLE DOC REPORT" 60;
      str_repeat "=" 60; "Generated on: " +:+ strftime_report t;
      str_repeat "-" 60 ] ∧
  Forall (λ l, String.length l = 60%nat)
    [ str_repeat "=" 60; format_center "PORTABLE DOC REPORT" 60;
      str_repeat "-" 60 ] ∧
  (∀ i u, users !! i = Some u →
     take 7 (drop (5 + 7 * i) lines) =
     [ "ID       : " +:+ py_str rt (id u);
       "Name     : " +:+ py_str rt (name u);
       "Username : " +:+ py_str rt (username u);
       "Email    : " +:+ py_str rt (email u);
       "Company  : " +:+ py_str rt (company_name u);
       "City     : " +:+ py_str rt (city u);
       str_repeat "-" 30 ]) ∧
  String.length (str_repeat "-" 30) = 30%nat ∧
  lines !! (5 + 7 * n)%nat = Some ("Total Users: " +:+ str_of_Z (Z.of_nat n)) ∧
  endswith text newline = false ∧
  length (splitlines text) =
    (6 + 7 * n + sum_list (map (field_newlines rt) users))%nat ∧
  (Forall (λ u, field_newlines rt u = 0%nat) users → splitlines text = lines).
Proof.
  intros lines text n. subst lines text n.
  split; [apply length_report_lines|].
  split; [by rewrite report_lines_eq|].
  split; [by repeat constructor|].
  split.
  { intros i u Hi. rewrite report_lines_eq, <- drop_drop.
    change (drop 5 (header_lines t ++ ?l)) with l.
    by apply user_block_at. }
  split; [reflexivity|].
  split.
  { rewrite report_lines_eq, app_assoc.
    rewrite lookup_app_r; rewrite length_app, length_user_blocks; cbn; [|lia].
    by rewrite Nat.sub_diag. }
  split; [apply report_text_no_trailing_newline|].
  split.
  { rewrite length_splitlines, report_text_newlines. lia. }
  intros H. apply splitlines_join.
  - apply report_lines_nonempty.
  - by apply report_lines_no_newline.
Qed.

(** The first five lines of the text are the header, whatever the
    records hold. *)
Lemma report_text_header rt t users :
  take 5 (splitlines (str_join newline (report_lines rt t users))) =
  header_lines t.
Proof.
  rewrite report_lines_eq, splitlines_join_prefix.
  - reflexivity.
  - apply header_lines_no_newline.
  - by destruct (concat (map (user_lines rt) users)).
Qed.

(** C2, as stated, fails: no timestamp is supplied to
    [generate_text_report], which reads the clock itself, so two calls
    with the same generator and the same records, one after the other,
    return different texts once the clock has moved on. *)
Lemma C2_same_arguments_different_text :
  let generator := mk_ReportGenerator "portable_reports" in
  let first :=
    generate_text_report RefRuntime.runtime generator [leanne] ticking_world in
  let second :=
    generate_text_report RefRuntime.runtime generator [leanne] first.2 in
  first.1 ≠ second.1.
Proof. vm_compute. intros H. discriminate H. Qed.

(** C2, amended: the text that [generate_text_report] returns is
    determined by the records and by the time its own reading of the
    clock gives: two calls, in any two worlds and on any two generators,
    that are given the same records and read the same time return the
    same text; the call does nothing to the world but advance the clock,
    and the fourth line of the text is [Generated on:] followed by that
    reading. *)
Theorem C2_render_deterministic rt self1 self2 users w1 w2 :
  w_clock w1 (w_ticks w1) = w_clock w2 (w_ticks w2) →
  ∃ text,
    generate_text_report rt self1 users w1 =
      (Ok text, set_ticks (S (w_ticks w1)) w1) ∧
    generate_text_report rt self2 users w2 =
      (Ok text, set_ticks (S (w_ticks w2)) w2) ∧
    splitlines text !! 3%nat =
      Some ("Generated on: " +:+ strftime_report (w_clock w1 (w_ticks w1))).
Proof.
  intros Hclock.
  exists (str_join newline (report_lines rt (w_clock w1 (w_ticks w1)) users)).
  split; [apply generate_text_report_eq|].
  split; [rewrite Hclock; apply generate_text_report_eq|].
  rewrite <- (lookup_take_lt _ 5) by lia.
  by rewrite report_text_header.
Qed.

(** C8: the report of no records is the five header lines (the banner
    of 60 [=], the title centered in 60 columns, the banner again, the
    Generated-on line, the separator of 60 [-]) and the footer, whose text
    is [Total Users: 0]; no block of a record is in it. *)
Theorem C8_empty_report rt self w :
  ∃ text w',
    generate_text_report rt self [] w = (Ok text, w') ∧
    text =
      str_join newline
        [ "============================================================";
          "                    PORTABLE DOC REPORT                     ";
          "============================================================";
          "Generated on: " +:+ strftime_report (w_clock w (w_ticks w));
          "------------------------------------------------------------";
          "Total Users: 0" ] ∧
    splitlines text =
      [ "============================================================";
        "                    PORTABLE DOC REPORT                     ";
        "============================================================";
        "Generated on: " +:+ strftime_report (w_clock w (w_ticks w));
        "------------------------------------------------------------";
        "Total Users: 0" ] ∧
    last (splitlines text) = Some "Total Users: 0" ∧
    endswith text "Total Users: 0" = true ∧
    length (splitlines text) = 6%nat.
Proof.
  eexists _, _. split; [apply generate_text_report_eq|].
  split; [reflexivity|].
  assert (E : splitlines
                (str_join newline (report_lines rt (w_clock w (w_ticks w)) []))
              = report_lines rt (w_clock w (w_ticks w)) []).
  { apply splitlines_join; [apply report_lines_nonempty|].
    apply report_lines_no_newline. constructor. }
  rewrite E. split; [reflexivity|]. split; [reflexivity|].
  split; [|reflexivity].
  destruct (str_join_snoc newline (header_lines (w_clock w (w_ticks w)))
              "Total Users: 0") as [p Hp].
  change (report_lines rt (w_clock w (w_ticks w)) [])
    with (header_lines (w_clock w (w_ticks w)) ++ ["Total Users: 0"]).
  rewrite Hp. apply endswith_app.
Qed.

(** The empty report at 17:24:05 on the 3rd of November 2026, line by
    line. *)
Lemma C8_empty_report_witness :
  ∃ text w',
    generate_text_report RefRuntime.runtime
      (mk_ReportGenerator "portable_reports") []
      (sample_world (Ok (mk_response 200 (Ok "[]")))) = (Ok text, w') ∧
    splitlines text =
      [ "============================================================";
        "                    PORTABLE DOC REPORT                     ";
        "============================================================";
        "Generated on: 2026-11-03 17:24:05";
        "------------------------------------------------------------";
        "Total Users: 0" ].
Proof.
  destruct (C8_empty_report RefRuntime.runtime
              (mk_ReportGenerator "portable_reports")
              (sample_world (Ok (mk_response 200 (Ok "[]")))))
    as (text & w' & Hrun & _ & Hlines & _).
  exists text, w'. split; [exact Hrun|exact Hlines].
Defined.

(** C7: the object of the scenario maps to the record of the scenario,
    and the report of this one record has the line
    [Company  : Romaguera-Crona] and ends with [Total Users: 1]. *)
Theorem C7_leanne_scenario rt self w :
  from_json leanne_json = Ok leanne ∧
  ∃ text w',
    generate_text_report rt self [leanne] w = (Ok text, w') ∧
    "Company  : Romaguera-Crona" ∈ splitlines text ∧
    last (splitlines text) = Some "Total Users: 1" ∧
    endswith text "Total Users: 1" = true.
Proof.
  split; [reflexivity|].
  eexists _, _. split; [apply generate_text_report_eq|].
  set (t := w_clock w (w_ticks w)).
  assert (E : splitlines (str_join newline (report_lines rt t [leanne]))
              = report_lines rt t [leanne]).
  { apply splitlines_join; [apply report_lines_nonempty|].
    apply report_lines_no_newline. by repeat constructor. }
  rewrite E. split; [|split].
  - rewrite report_lines_eq. apply elem_of_app. right.
    apply elem_of_app. left.
    change (concat (map (user_lines rt) [leanne])) with
      [ "ID       : 1"; "Name     : Leanne Graham"; "Username : Bret";
        "Email    : [email protected]"; "Company  : Romaguera-Crona";
        "City     : Gwenborough"; str_repeat "-" 30 ].
    do 4 apply list_elem_of_further. apply list_elem_of_here.
  - reflexivity.
  - rewrite report_lines_eq, app_assoc.
    destruct (str_join_snoc newline
                (header_lines t ++ concat (map (user_lines rt) [leanne]))
                (footer_line (length [leanne]))) as [p ->].
    apply endswith_app.
Qed.

(** ** The file writer *)

Lemma mkdir_all_keeps dirs : ∀ m p,
  m !! p = Some Dir → mkdir_all dirs m !! p = Some Dir.
Proof.
  induction dirs as [|d dirs IH]; intros m p Hp; [done|].
  cbn. apply IH. destruct (decide (d = p)) as [->|Hne].
  - apply lookup_insert_eq.
  - by rewrite lookup_insert_ne.
Qed.

Lemma mkdir_all_makes dirs : ∀ m p,
  p ∈ dirs → mkdir_all dirs m !! p = Some Dir.
Proof.
  induction dirs as [|d dirs IH]; intros m p Hp; [by inversion Hp|].
  cbn. apply elem_of_cons in Hp as [->|Hp].
  - apply mkdir_all_keeps, lookup_insert_eq.
  - by apply IH.
Qed.

Lemma path_prefixes_from_last rest : ∀ seen,
  seen +:+ rest ∈ path_prefixes_from seen rest.
Proof.
  induction rest as [|c rest IH]; intros seen; cbn.
  - rewrite append_nil_r. apply list_elem_of_here.
  - apply elem_of_app. right.
    replace (seen +:+ String c rest) with ((seen +:+ String c "") +:+ rest).
    + apply IH.
    + by rewrite append_assoc.
Qed.

Lemma path_prefixes_self path : path ∈ path_prefixes path.
Proof. apply (path_prefixes_from_last path ""). Qed.

(** An output directory that is there is left alone. *)
Lemma ReportGenerator_init_existing dir w :
  is_Some (w_nodes w !! dir) →
  ReportGenerator_init dir w = (Ok (mk_ReportGenerator dir), w).
Proof.
  intros H. unfold ReportGenerator_init; unfold_M; cbn.
  by rewrite bool_decide_eq_true_2.
Qed.

(** An output directory that is missing is made, with its parents, when
    nothing is in the way of [os.makedirs]. *)
Lemma ReportGenerator_init_creates dir w :
  w_nodes w !! dir = None →
  w_fault w OpMakedirs dir = None →
  existsb (λ d, is_file (w_nodes w !! d)) (path_prefixes dir) = false →
  ∃ w', ReportGenerator_init dir w = (Ok (mk_ReportGenerator dir), w') ∧
        (∀ p, p ∈ path_prefixes dir → w_nodes w' !! p = Some Dir) ∧
        w_nodes w' !! dir = Some Dir.
Proof.
  intros Hnone Hfault Hfiles.
  exists (set_nodes (mkdir_all (path_prefixes dir) (w_nodes w)) w).
  split; [|split].
  - unfold ReportGenerator_init, os_makedirs; unfold_M; cbn.
    rewrite Hnone.
    rewrite (bool_decide_eq_false_2 (is_Some None)) by (by intros [? ?]).
    cbn. rewrite Hfault, Hfiles, Hnone.
    by rewrite (bool_decide_eq_false_2 (is_Some None)) by (by intros [? ?]).
  - intros p Hp. by apply mkdir_all_makes.
  - apply mkdir_all_makes, path_prefixes_self.
Qed.

(** Whatever [OSError] [os.makedirs] meets is dropped: the constructor
    returns as if the directory were there, and the world is as it was. *)
Lemma ReportGenerator_init_suppresses dir w e :
  w_nodes w !! dir = None →
  w_fault w OpMakedirs dir = Some e → isinstance e OSError = true →
  ReportGenerator_init dir w = (Ok (mk_ReportGenerator dir), w).
Proof.
  intros Hnone Hfault He.
  unfold ReportGenerator_init, os_makedirs; unfold_M; cbn.
  rewrite Hnone.
  rewrite (bool_decide_eq_false_2 (is_Some None)) by (by intros [? ?]).
  cbn. by rewrite Hfault, He.
Qed.

(** What opening or writing the file raises leaves [save_to_file] as it
    is. *)
Lemma save_to_file_propagates rt self content filename w e w' :
  open_and_write (os_path_join (output_dir self) filename) content w
    = (Raise e, w') →
  save_to_file rt self content filename w = (Raise e, w').
Proof.
  intros H. unfold save_to_file; unfold_M. by rewrite H.
Qed.

Lemma save_to_file_fault rt self content filename w e :
  path_refused (os_path_join (output_dir self) filename) = false →
  has_nul (os_path_join (output_dir self) filename) = false →
  w_fault w OpOpen (os_path_join (output_dir self) filename) = Some e →
  save_to_file rt self content filename w = (Raise e, w).
Proof.
  intros Hpath Hnul H. apply save_to_file_propagates. unfold open_and_write.
  by rewrite Hpath, Hnul, H.
Qed.

(** C9: where [os.makedirs] is denied, [__init__] returns as if nothing
    had happened: no error reaches the caller and the output directory is
    still missing. *)
Theorem C9_makedirs_error_dropped :
  w_nodes readonly_world !! "portable_reports" = None ∧
  (∃ e, os_makedirs "portable_reports" readonly_world
          = (Raise e, readonly_world) ∧ exc_type e = PermissionError) ∧
  ReportGenerator_init "portable_reports" readonly_world
    = (Ok (mk_ReportGenerator "portable_reports"), readonly_world).
Proof.
  split; [reflexivity|]. split; [by eexists|].
  by apply (ReportGenerator_init_suppresses _ _
              (new_exc PermissionError
                 "[Errno 13] Permission denied: 'portable_reports'")).
Qed.

(** ** The scenarios, run *)

(** The reference decoder reads the text of the scenario as the object
    that [leanne_json] is. *)
Example leanne_body_decodes :
  json_loads RefRuntime.runtime leanne_body = Ok (PList [leanne_json]).
Proof. reflexivity. Qed.

(** The whole run on the scenario: the report file and its content. *)
Example main_writes_report :
  let w := sample_world (Ok (mk_response 200 (Ok leanne_body))) in
  (main RefRuntime.runtime w).1 = Ok () ∧
  w_nodes (main RefRuntime.runtime w).2
    !! "portable_reports/Report_20261103_172405.txt" =
  Some (File (str_join newline
    [ "============================================================";
      "                    PORTABLE DOC REPORT                     ";
      "============================================================";
      "Generated on: 2026-11-03 17:24:05";
      "------------------------------------------------------------";
      "ID       : 1";
      "Name     : Leanne Graham";
      "Username : Bret";
      "Email    : [email protected]";
      "Company  : Romaguera-Crona";
      "City     : Gwenborough";
      "------------------------------";
      "Total Users: 1" ])).
Proof. split; vm_compute; reflexivity. Qed.

(** A 404 that [urlopen] raises as an [HTTPError] leaves [fetch_data] as
    an [APIConnectionError] with the reason, and no file is written. *)
Example main_network_error :
  let w := sample_world
             (Raise (mk_pyexc HTTPError "HTTP Error 404: Not Found" "Not Found")) in
  (fetch_data RefRuntime.runtime w).1 =
    Raise (new_exc APIConnectionError "Network Error: Not Found") ∧
  w_nodes (main RefRuntime.runtime w).2 = ∅.
Proof. split; reflexivity. Qed.

(** Two calls in worlds that differ in everything but the time read. *)
Lemma C2_render_witness :
  ∃ text,
    generate_text_report RefRuntime.runtime (mk_ReportGenerator "out")
      [leanne] (sample_world (Ok (mk_response 200 (Ok "[]")))) =
      (Ok text,
       set_ticks 1 (sample_world (Ok (mk_response 200 (Ok "[]"))))) ∧
    generate_text_report RefRuntime.runtime
      (mk_ReportGenerator "portable_reports") [leanne] readonly_world =
      (Ok text, set_ticks 1 readonly_world) ∧
    splitlines text !! 3%nat = Some "Generated on: 2026-11-03 17:24:05".
Proof.
  exact (C2_render_deterministic RefRuntime.runtime
           (mk_ReportGenerator "out") (mk_ReportGenerator "portable_reports")
           [leanne] (sample_world (Ok (mk_response 200 (Ok "[]"))))
           readonly_world eq_refl).
Defined.

(** The body [not json], with the reference decoder. *)
Lemma C4_not_json_witness :
  let w := sample_world (Ok (mk_response 200 (Ok "not json"))) in
  (∃ e w', fetch_data RefRuntime.runtime w = (Raise e, w') ∧
           exc_type e = DataParseError) ∧
  w_nodes (main RefRuntime.runtime w).2 = w_nodes w.
Proof.
  intros w.
  apply (proj2 (C4_parse_error_iff_decode_error RefRuntime.runtime w
                  (mk_response 200 (Ok "not json")) "not json"
                  eq_refl eq_refl) eq_refl eq_refl).
  exists (new_exc JSONDecodeError "Expecting value"). split; reflexivity.
Defined.

(** The JSON text of the scenario, fetched with the reference decoder. *)
Lemma C6_fetch_witness :
  ∃ users w',
    fetch_data RefRuntime.runtime
      (sample_world (Ok (mk_response 200 (Ok leanne_body)))) = (Ok users, w') ∧
    length users = 1%nat ∧
    Forall2 (λ item u, from_json item = Ok u) [leanne_json] users ∧
    (∀ i, Ok <$> (users !! i) = from_json <$> ([leanne_json] !! i)).
Proof.
  apply (C6_fetch_maps_in_order RefRuntime.runtime
           (sample_world (Ok (mk_response 200 (Ok leanne_body))))
           (mk_response 200 (Ok leanne_body)) leanne_body [leanne_json]
           eq_refl eq_refl eq_refl eq_refl).
  repeat constructor. by exists leanne.
Defined.

(** The report of the one record of the scenario. *)
Lemma C10_layout_witness :
  let t := mk_datetime 2026 11 3 17 24 5 in
  let lines := report_lines RefRuntime.runtime t [leanne] in
  take 7 (drop 5 lines) =
    [ "ID       : 1"; "Name     : Leanne Graham"; "Username : Bret";
      "Email    : [email protected]"; "Company  : Romaguera-Crona";
      "City     : Gwenborough"; "------------------------------" ] ∧
  splitlines (str_join newline lines) = lines.
Proof.
  intros t lines.
  destruct (C10_report_layout RefRuntime.runtime t [leanne])
    as (_ & _ & _ & Hblock & _ & _ & _ & _ & Hsplit).
  split.
  - exact (Hblock 0%nat leanne eq_refl).
  - apply Hsplit. by repeat constructor.
Defined.

(** * Further properties *)

(** ** The fetch client, in full *)

(** [fetch_data] in one equation: what it returns or raises is decided by
    the answer of the network, and all it does to the world is print. *)
Lemma fetch_data_outcome rt w :
  fetch_data rt w =
  match fetch_outcome rt (w_urlopen w) with
  | Ok users => (Ok users, after_fetch (length users) w)
  | Raise e => (Raise (leaving e), after_fetch_start w)
  end.
Proof.
  unfold fetch_data, fetch_outcome; unfold_M; cbn.
  assert (Hleave : ∀ e w0,
            match fetch_data_except e with
            | Some handler => handler w0
            | None => (Raise e, w0)
            end = (Raise (leaving e), w0)).
  { intros e w0. unfold fetch_data_except, leaving.
    repeat case_match; by simplify_eq. }
  destruct (w_urlopen w) as [resp|e]; cbn; [|apply Hleave].
  case_bool_decide; cbn; [reflexivity|].
  destruct (read resp) as [data|e]; cbn; [|apply Hleave].
  destruct (json_loads rt data) as [data_list|e]; cbn; [|apply Hleave].
  destruct (py_iter data_list) as [items|e]; cbn; [|apply Hleave].
  destruct (fetch_loop items []) as [users|e]; cbn; [reflexivity|apply Hleave].
Qed.

Lemma fetch_loop_first_failure good : ∀ acc users bad rest e,
  Forall2 (λ item u, from_json item = Ok u) good users →
  from_json bad = Raise e →
  fetch_loop (good ++ bad :: rest) acc = Raise e.
Proof.
  induction good as [|item good IH]; intros acc users bad rest e Hgood Hbad.
  - cbn. by rewrite Hbad.
  - inversion Hgood as [|? u ? users' Hitem Hrest]; subst.
    cbn. rewrite Hitem. by eapply IH.
Qed.

Lemma fetch_outcome_array rt resp body items :
  status resp = 200 → read resp = Ok body →
  json_loads rt body = Ok (PList items) →
  fetch_outcome rt (Ok resp) = fetch_loop items [].
Proof.
  intros Hs Hr Hj. unfold fetch_outcome; cbn.
  rewrite bool_decide_eq_false_2 by (by rewrite Hs; intros H; apply H).
  rewrite Hr; cbn. by rewrite Hj.
Qed.

(** The fetch gives all or nothing: when an element of the array fails to
    map, the elements before it having mapped, [fetch_data] raises an
    [AppError] whose text is [Unexpected Error:] followed by the text of
    that failure; no record is returned, the elements after it are not
    looked at, and the success line is not printed. *)
Theorem fetch_aborts_on_first_bad_element rt w resp body good users bad rest e :
  w_urlopen w = Ok resp → status resp = 200 → read resp = Ok body →
  json_loads rt body = Ok (PList (good ++ bad :: rest)) →
  Forall2 (λ item u, from_json item = Ok u) good users →
  from_json bad = Raise e →
  fetch_data rt w =
  (Raise (new_exc AppError ("Unexpected Error: " +:+ exc_str e)),
   after_fetch_start w).
Proof.
  intros Hu Hs Hr Hj Hgood Hbad.
  rewrite fetch_data_outcome, Hu.
  rewrite (fetch_outcome_array rt resp body _ Hs Hr Hj).
  rewrite (fetch_loop_first_failure good [] users bad rest e Hgood Hbad).
  apply from_json_raise in Hbad. unfold leaving.
  destruct e as [c msg reason]; cbn in Hbad; subst c. reflexivity.
Qed.

(** An array whose second element is a number. *)
Lemma fetch_aborts_witness :
  let body := "[{}, 7, {}]" in
  let w := sample_world (Ok (mk_response 200 (Ok body))) in
  fetch_data RefRuntime.runtime w =
  (Raise (new_exc AppError
            "Unexpected Error: Invalid data structure: 'int' object has no attribute 'get'"),
   after_fetch_start w).
Proof.
  intros body w.
  exact (fetch_aborts_on_first_bad_element RefRuntime.runtime w
           (mk_response 200 (Ok body)) body [PDict []] [mapped []] (PInt 7)
           [PDict []] (invalid_structure (PInt 7))
           eq_refl eq_refl eq_refl eq_refl
           ltac:(by repeat constructor) eq_refl).
Defined.

(** A [URLError] (an [HTTPError] is one), whether [urlopen] raises it or
    reading the body does, leaves [fetch_data] as an [APIConnectionError]
    whose text is [Network Error:] followed by the reason. *)
Theorem fetch_network_error rt w e :
  (w_urlopen w = Raise e ∨
   ∃ resp, w_urlopen w = Ok resp ∧ status resp = 200 ∧ read resp = Raise e) →
  isinstance e URLError = true →
  fetch_data rt w =
  (Raise (new_exc APIConnectionError ("Network Error: " +:+ exc_reason e)),
   after_fetch_start w).
Proof.
  intros Hnet He. rewrite fetch_data_outcome.
  assert (Hout : fetch_outcome rt (w_urlopen w) = Raise e).
  { destruct Hnet as [->|(resp & -> & Hs & Hr)]; [reflexivity|].
    unfold fetch_outcome; cbn.
    rewrite bool_decide_eq_false_2 by (by rewrite Hs; intros H; apply H).
    by rewrite Hr. }
  rewrite Hout. unfold leaving. by rewrite He.
Qed.

(** The name of the host cannot be resolved. *)
Lemma fetch_network_error_witness :
  let e := mk_pyexc URLError
             "<urlopen error [Errno -2] Name or service not known>"
             "[Errno -2] Name or service not known" in
  fetch_data RefRuntime.runtime (sample_world (Raise e)) =
  (Raise (new_exc APIConnectionError
            "Network Error: [Errno -2] Name or service not known"),
   after_fetch_start (sample_world (Raise e))).
Proof.
  intros e.
  exact (fetch_network_error RefRuntime.runtime (sample_world (Raise e)) e
           (or_introl eq_refl) eq_refl).
Defined.

(** An [OSError] that is no [URLError], such as the [TimeoutError] of a
    read that times out, is not reported as a connection failure: it
    leaves [fetch_data] as a plain [AppError] whose text starts with
    [Unexpected Error:]. *)
Theorem fetch_other_oserror_unexpected rt w e :
  (w_urlopen w = Raise e ∨
   ∃ resp, w_urlopen w = Ok resp ∧ status resp = 200 ∧ read resp = Raise e) →
  isinstance e OSError = true → isinstance e URLError = false →
  ∃ e', fetch_data rt w = (Raise e', after_fetch_start w) ∧
        e' = new_exc AppError ("Unexpected Error: " +:+ exc_str e) ∧
        isinstance e' APIConnectionError = false.
Proof.
  intros Hnet Hos Hurl. rewrite fetch_data_outcome.
  assert (Hout : fetch_outcome rt (w_urlopen w) = Raise e).
  { destruct Hnet as [->|(resp & -> & Hs & Hr)]; [reflexivity|].
    unfold fetch_outcome; cbn.
    rewrite bool_decide_eq_false_2 by (by rewrite Hs; intros H; apply H).
    by rewrite Hr. }
  rewrite Hout.
  assert (Hl : leaving e = new_exc AppError ("Unexpected Error: " +:+ exc_str e)).
  { unfold leaving. rewrite Hurl.
    destruct e as [[] msg reason]; try discriminate Hos; try discriminate Hurl;
      reflexivity. }
  exists (leaving e). rewrite Hl. by repeat split.
Qed.

(** The body stops coming and the read times out. *)
Lemma fetch_timeout_witness :
  let e := new_exc TimeoutError "The read operation timed out" in
  let w := sample_world (Ok (mk_response 200 (Raise e))) in
  ∃ e', fetch_data RefRuntime.runtime w = (Raise e', after_fetch_start w) ∧
        e' = new_exc AppError "Unexpected Error: The read operation timed out" ∧
        isinstance e' APIConnectionError = false.
Proof.
  intros e w.
  exact (fetch_other_oserror_unexpected RefRuntime.runtime w e
           (or_intror (ex_intro _ (mk_response 200 (Raise e))
                         (conj eq_refl (conj eq_refl eq_refl))))
           eq_refl eq_refl).
Defined.

Lemma fetch_data_try rt w :
  fetch_data rt w =
  try_catch (fetch_block rt) fetch_data_except (after_fetch_start w).
Proof. reflexivity. Qed.

(** Whatever leaves the [try] statement of [fetch_data] (lines 64-84) is
    an [APIConnectionError], a [DataParseError] or a plain [AppError],
    unless it is no [Exception] at all (a [KeyboardInterrupt], say), which
    passes through; and this whatever the block does and raises. The
    [print] of line 63 stands before the [try] and is not covered. *)
Theorem fetch_try_error_classes (block : M (list UserData)) w e w' :
  try_catch block fetch_data_except w = (Raise e, w') →
  exc_type e = APIConnectionError ∨ exc_type e = DataParseError ∨
  exc_type e = AppError ∨ isinstance e Exception = false.
Proof.
  unfold try_catch.
  destruct (block w) as [[users|e0] w1]; [done|].
  destruct (fetch_data_except e0) as [handler|] eqn:Hclause.
  - revert Hclause. unfold fetch_data_except.
    repeat case_match; intros [= <-] [= <- _]; auto.
  - intros [= <- _]. right; right; right.
    revert Hclause. unfold fetch_data_except.
    by repeat case_match.
Qed.

(** The block of [fetch_data] itself, on a body that is no JSON. *)
Lemma fetch_try_error_classes_witness :
  let e := new_exc DataParseError "JSON Decode Error: Expecting value" in
  exc_type e = APIConnectionError ∨ exc_type e = DataParseError ∨
  exc_type e = AppError ∨ isinstance e Exception = false.
Proof.
  intros e.
  exact (fetch_try_error_classes (fetch_block RefRuntime.runtime)
           (sample_world (Ok (mk_response 200 (Ok "not json")))) e _ eq_refl).
Defined.

(** All that [fetch_data] does to the world is print: the file system,
    the clock and the input are as they were; the console has the
    [Fetching] line more, and after it the [Successfully fetched] line,
    with the number of records returned, exactly when the fetch
    returns. *)
Theorem fetch_only_prints rt w :
  let w' := (fetch_data rt w).2 in
  w_nodes w' = w_nodes w ∧ w_ticks w' = w_ticks w ∧
  w_stdin w' = w_stdin w ∧
  w_stdout w' =
  match (fetch_data rt w).1 with
  | Ok users =>
      (w_stdout w +:+ ("Fetching data from " +:+ BASE_URL +:+ "...") +:+ newline)
      +:+ ("Successfully fetched " +:+ str_of_Z (Z.of_nat (length users))
           +:+ " records.") +:+ newline
  | Raise _ =>
      w_stdout w +:+ ("Fetching data from " +:+ BASE_URL +:+ "...") +:+ newline
  end.
Proof.
  rewrite fetch_data_outcome.
  by destruct (fetch_outcome rt (w_urlopen w)).
Qed.

(** A body that is JSON but no array is iterated all the same: an empty
    object or an empty string gives no records, without failure; an object
    or a string that is not empty fails on its first key or character,
    which is a str; a number, a boolean or [null] cannot be iterated. Each
    failure leaves as an [AppError]. *)
Theorem fetch_non_array_body rt w resp body v :
  w_urlopen w = Ok resp → status resp = 200 → read resp = Ok body →
  json_loads rt body = Ok v →
  match v with
  | PList _ => True
  | PDict [] | PStr EmptyString =>
      fetch_data rt w = (Ok [], after_fetch 0 w)
  | PDict (_ :: _) | PStr (String _ _) =>
      fetch_data rt w =
      (Raise (new_exc AppError
                "Unexpected Error: Invalid data structure: 'str' object has no attribute 'get'"),
       after_fetch_start w)
  | _ =>
      fetch_data rt w =
      (Raise (new_exc AppError
                ("Unexpected Error: '" +:+ type_name v +:+
                 "' object is not iterable")),
       after_fetch_start w)
  end.
Proof.
  intros Hu Hs Hr Hj. rewrite fetch_data_outcome, Hu.
  unfold fetch_outcome; cbn.
  rewrite bool_decide_eq_false_2 by (by rewrite Hs; intros H; apply H).
  rewrite Hr; cbn. rewrite Hj; cbn.
  destruct v as [| | | |s|items|entries]; try reflexivity; try exact I.
  - by destruct s.
  - by destruct entries as [|[k x] entries].
Qed.

(** The body [{}], and the body [5]. *)
Lemma fetch_non_array_witness :
  let w5 := sample_world (Ok (mk_response 200 (Ok "5"))) in
  let wobj := sample_world (Ok (mk_response 200 (Ok "{}"))) in
  fetch_data RefRuntime.runtime wobj = (Ok [], after_fetch 0 wobj) ∧
  fetch_data RefRuntime.runtime w5 =
  (Raise (new_exc AppError "Unexpected Error: 'int' object is not iterable"),
   after_fetch_start w5).
Proof.
  intros w5 wobj. split.
  - exact (fetch_non_array_body RefRuntime.runtime wobj
             (mk_response 200 (Ok "{}")) "{}" (PDict [])
             eq_refl eq_refl eq_refl eq_refl).
  - exact (fetch_non_array_body RefRuntime.runtime w5
             (mk_response 200 (Ok "5")) "5" (PInt 5)
             eq_refl eq_refl eq_refl eq_refl).
Defined.

(** ** The record mapper, further *)

(** A [name] that is there in [company] is taken as it is, whatever it
    is: a [null] name gives [None], not the sentinel. Likewise the [city]
    in [address]. *)
Theorem from_json_keeps_nested_value (d : list (string * pyval)) :
  absent_or_object d "company" → absent_or_object d "address" →
  ∃ u, from_json (PDict d) = Ok u ∧
    (∀ c v, dict_lookup d "company" = Some (PDict c) →
            dict_lookup c "name" = Some v → company_name u = v) ∧
    (∀ a v, dict_lookup d "address" = Some (PDict a) →
            dict_lookup a "city" = Some v → city u = v).
Proof.
  intros Hc Ha. exists (mapped d). split; [by apply from_json_object|].
  split; intros x v E Ev; cbn; by rewrite E, Ev.
Qed.

(** A company whose name is [null]. *)
Lemma from_json_null_name_witness :
  let d := [("company", PDict [("name", PNone)])] in
  ∃ u, from_json (PDict d) = Ok u ∧ company_name u = PNone.
Proof.
  intros d.
  destruct (from_json_keeps_nested_value d) as (u & Hu & Hname & _).
  - right. by eexists.
  - by left.
  - exists u. split; [exact Hu|]. by apply (Hname [("name", PNone)]).
Defined.

(** The mapper reads six keys and nothing else: two objects that agree on
    them map alike, whatever else they hold and in whatever order. *)
Theorem from_json_reads_six_keys (d1 d2 : list (string * pyval)) :
  Forall (λ k, dict_lookup d1 k = dict_lookup d2 k) mapper_keys →
  from_json (PDict d1) = from_json (PDict d2).
Proof.
  intros H. unfold mapper_keys in H.
  repeat match goal with
         | H : Forall _ (_ :: _) |- _ =>
             let E := fresh "E" in
             apply Forall_cons in H as [E H]
         end.
  unfold from_json, py_get; cbn. by rewrite E, E0, E1, E2, E3, E4.
Qed.

(** The same record with a [phone] more, keys in another order. *)
Lemma from_json_reads_six_keys_witness :
  from_json (PDict [("id", PInt 3); ("name", PStr "Ann")]) =
  from_json (PDict [("phone", PStr "555"); ("name", PStr "Ann");
                    ("id", PInt 3)]).
Proof.
  apply from_json_reads_six_keys. by repeat constructor.
Defined.

(** The text of the error names the type of the first value that has no
    [get]: the input itself, else what [company] holds, else what
    [address] holds; [company] comes first when both are at fault. *)
Theorem from_json_error_names_first_offender (data : pyval) :
  (is_dict data = false →
   from_json data = Raise (invalid_structure data)) ∧
  (∀ d v, data = PDict d → dict_lookup d "company" = Some v →
          is_dict v = false →
          from_json data = Raise (invalid_structure v)) ∧
  (∀ d v, data = PDict d → absent_or_object d "company" →
          dict_lookup d "address" = Some v → is_dict v = false →
          from_json data = Raise (invalid_structure v)).
Proof.
  split; [apply from_json_not_dict|]. split.
  - intros d v -> E Hv. by apply from_json_company_not_object.
  - intros d v -> Hc E Hv. by apply from_json_address_not_object.
Qed.

(** Both [company] (a string) and [address] (a number) are at fault. *)
Lemma from_json_error_witness :
  from_json (PDict [("address", PInt 4); ("company", PStr "Acme")]) =
  Raise (new_exc ValueError
           "Invalid data structure: 'str' object has no attribute 'get'").
Proof.
  exact (proj1 (proj2 (from_json_error_names_first_offender _))
           [("address", PInt 4); ("company", PStr "Acme")] (PStr "Acme")
           eq_refl eq_refl eq_refl).
Defined.

(** ** The report renderer, further *)

(** The clock shows in the fourth line alone: the reports of the same
    records at two times differ in that line at most. *)
Theorem report_lines_clock rt t1 t2 users :
  report_lines rt t2 users =
  <[3%nat := "Generated on: " +:+ strftime_report t2]>
    (report_lines rt t1 users).
Proof. by rewrite !report_lines_eq. Qed.

Lemma append_inj_l (p a b : string) : p +:+ a = p +:+ b → a = b.
Proof.
  induction p as [|c p IH]; [done|].
  rewrite !append_cons. intros [= H]. by apply IH.
Qed.

Lemma user_lines_inj rt u v :
  user_lines rt u = user_lines rt v → field_texts rt u = field_texts rt v.
Proof.
  unfold user_lines, field_texts. intros [= H1 H2 H3 H4 H5 H6].
  by rewrite (append_inj_l _ _ _ H1), (append_inj_l _ _ _ H2),
    (append_inj_l _ _ _ H3), (append_inj_l _ _ _ H4),
    (append_inj_l _ _ _ H5), (append_inj_l _ _ _ H6).
Qed.

Lemma user_blocks_inj rt (x y : list string) us : ∀ vs,
  length us = length vs →
  concat (map (user_lines rt) us) ++ x = concat (map (user_lines rt) vs) ++ y →
  map (field_texts rt) us = map (field_texts rt) vs.
Proof.
  induction us as [|u us IH]; intros [|v vs] Hlen H; try done.
  cbn [map concat] in *. rewrite <- !app_assoc in H.
  apply app_inj_1 in H as [Huv H]; [|reflexivity].
  f_equal; [by apply user_lines_inj|].
  apply IH; [|exact H]. cbn in Hlen. lia.
Qed.

(** Nothing that the report shows is lost in the text: when no field
    text holds a newline, two reports with the same text show the same
    time and, record by record, the same six field texts. *)
Theorem report_text_determines_fields rt t1 t2 us vs :
  Forall (λ u, field_newlines rt u = 0%nat) us →
  Forall (λ u, field_newlines rt u = 0%nat) vs →
  str_join newline (report_lines rt t1 us) =
  str_join newline (report_lines rt t2 vs) →
  strftime_report t1 = strftime_report t2 ∧
  map (field_texts rt) us = map (field_texts rt) vs.
Proof.
  intros Hus Hvs Htext.
  assert (Hlines : report_lines rt t1 us = report_lines rt t2 vs).
  { rewrite <- (splitlines_join (report_lines rt t1 us)),
      <- (splitlines_join (report_lines rt t2 vs));
      auto using report_lines_nonempty, report_lines_no_newline.
    by rewrite Htext. }
  assert (Hlen : length us = length vs).
  { apply (f_equal length) in Hlines.
    rewrite !length_report_lines in Hlines. lia. }
  rewrite !report_lines_eq in Hlines.
  apply app_inj_1 in Hlines as [Hhead Hrest]; [|reflexivity].
  split.
  - injection Hhead as H. by apply append_inj_l in H.
  - by apply (user_blocks_inj rt _ _ us vs Hlen Hrest).
Qed.

(** Two records that differ in the type of [id] only, [1] and ["1"],
    have the same report. *)
Lemma report_text_determines_witness :
  let t := mk_datetime 2026 11 3 17 24 5 in
  let other :=
    mk_UserData (PStr "1") (PStr "Leanne Graham") (PStr "Bret")
      (PStr "[email protected]") (PStr "Romaguera-Crona")
      (PStr "Gwenborough") in
  map (field_texts RefRuntime.runtime) [leanne] =
  map (field_texts RefRuntime.runtime) [other].
Proof.
  intros t other.
  refine (proj2 (report_text_determines_fields RefRuntime.runtime t t
                   [leanne] [other] _ _ eq_refl)); by repeat constructor.
Defined.

(** ** The file writer, further *)




(** What [save_to_file] refuses: a name that makes the path name a
    directory (the empty name, for one), and a content with a lone
    surrogate, which leaves the file empty. *)
Example save_to_file_refuses :
  let w := set_nodes {["out" := Dir]}
             (sample_world (Ok (mk_response 200 (Ok "[]")))) in
  let surrogate := String "237" (String "160" (String "128" "")) in
  (∃ e, save_to_file RefRuntime.runtime (mk_ReportGenerator "out")
          "new" "" w = (Raise e, w) ∧ exc_type e = IsADirectoryError) ∧
  (∃ e w', save_to_file RefRuntime.runtime (mk_ReportGenerator "out")
             surrogate "r.txt" w = (Raise e, w') ∧
           exc_type e = UnicodeEncodeError ∧
           w_nodes w' !! "out/r.txt" = Some (File "")).
Proof.
  split.
  - eexists. split; reflexivity.
  - eexists _, _. split; [reflexivity|]. by split.
Qed.



Lemma mkdir_all_keeps_node dirs : ∀ m p n,
  m !! p = Some n →
  (∀ d, d ∈ dirs → is_file (m !! d) = false) →
  mkdir_all dirs m !! p = Some n.
Proof.
  induction dirs as [|d dirs IH]; intros m p n Hp Hfiles; [done|].
  cbn. apply IH.
  - destruct (decide (d = p)) as [->|Hne].
    + rewrite lookup_insert_eq.
      specialize (Hfiles p ltac:(left)). rewrite Hp in Hfiles.
      by destruct n.
    + by rewrite lookup_insert_ne.
  - intros d' Hd'. destruct (decide (d = d')) as [->|Hne].
    + by rewrite lookup_insert_eq.
    + rewrite lookup_insert_ne by done. apply Hfiles. by right.
Qed.

Lemma existsb_false_elem {A : Type} (f : A → bool) (l : list A) :
  existsb f l = false → ∀ x, x ∈ l → f x = false.
Proof.
  induction l as [|y l IH]; intros H x Hx; [by inversion Hx|].
  cbn in H. apply orb_false_iff in H as [Hy Hl].
  apply elem_of_cons in Hx as [->|Hx]; [done|by apply IH].
Qed.

(** The world that the constructor leaves: the one it found, or that
    one with the directory and its parents made. *)
Lemma ReportGenerator_init_world dir w :
  (ReportGenerator_init dir w).2 = w ∨
  (ReportGenerator_init dir w =
     (Ok (mk_ReportGenerator dir),
      set_nodes (mkdir_all (path_prefixes dir) (w_nodes w)) w) ∧
   w_nodes w !! dir = None ∧
   existsb (λ d, is_file (w_nodes w !! d)) (path_prefixes dir) = false).
Proof.
  destruct (w_nodes w !! dir) as [n|] eqn:Hdir.
  { left. by rewrite ReportGenerator_init_existing. }
  unfold ReportGenerator_init, os_makedirs; unfold_M; cbn.
  rewrite Hdir.
  rewrite (bool_decide_eq_false_2 (is_Some None)) by (by intros [? ?]).
  cbn. destruct (w_fault w OpMakedirs dir) as [e|].
  { left. by destruct (isinstance e OSError). }
  rewrite Hdir.
  rewrite (bool_decide_eq_false_2 (is_Some None)) by (by intros [? ?]).
  destruct (existsb _ (path_prefixes dir)); [by left|by right].
Qed.

(** The constructor never takes anything away: every file and directory
    that is there before it runs is there after it, unchanged. *)
Theorem ReportGenerator_init_keeps_nodes dir w p n :
  w_nodes w !! p = Some n →
  w_nodes (ReportGenerator_init dir w).2 !! p = Some n.
Proof.
  intros Hp.
  destruct (ReportGenerator_init_world dir w) as [->|(-> & _ & Hfiles)];
    [done|].
  cbn. apply mkdir_all_keeps_node; [done|].
  by apply existsb_false_elem.
Qed.

(** A report that is there stays when the generator is made anew. *)
Lemma ReportGenerator_init_keeps_witness :
  let w := set_nodes {["old.txt" := File "kept"]}
             (sample_world (Ok (mk_response 200 (Ok "[]")))) in
  w_nodes (ReportGenerator_init "portable_reports" w).2 !! "old.txt"
  = Some (File "kept").
Proof.
  intros w.
  exact (ReportGenerator_init_keeps_nodes "portable_reports" w "old.txt"
           (File "kept") eq_refl).
Defined.

(** Making the generator a second time changes nothing more: it ends as
    the first time did, in the world that the first time left. *)
Theorem ReportGenerator_init_idempotent dir w :
  ReportGenerator_init dir (ReportGenerator_init dir w).2
  = ReportGenerator_init dir w.
Proof.
  destruct (ReportGenerator_init_world dir w) as [E|(E & _ & _)].
  - by rewrite E.
  - rewrite E. cbn. apply ReportGenerator_init_existing. cbn.
    rewrite (mkdir_all_makes _ _ dir (path_prefixes_self dir)). by eexists.
Qed.

(** The constructor lets no [OSError] out: whatever [os.makedirs] meets
    of that class is dropped, so what the constructor raises, if
    anything, is no [OSError]. *)
Theorem ReportGenerator_init_no_oserror dir w e w' :
  ReportGenerator_init dir w = (Raise e, w') →
  isinstance e OSError = false.
Proof.
  unfold ReportGenerator_init, os_makedirs; unfold_M; cbn.
  repeat case_match; simplify_eq; cbn in *; intros [= <- <-]; try done.
  all: by match goal with
          | H : (if isinstance ?x OSError then _ else _) = _ |- _ =>
              destruct (isinstance x OSError)
          end.
Qed.

(** The making of the directory is interrupted from the keyboard. *)
Lemma ReportGenerator_init_no_oserror_witness :
  let e := new_exc KeyboardInterrupt "" in
  let w := mk_world (Ok (mk_response 200 (Ok "[]")))
             (λ _, mk_datetime 2026 11 3 17 24 5) 0 ∅
             (λ _ _, Some e) "" [] in
  (ReportGenerator_init "portable_reports" w).1 = Raise e ∧
  isinstance e OSError = false.
Proof.
  intros e w. split; [reflexivity|].
  exact (ReportGenerator_init_no_oserror "portable_reports" w e
           (ReportGenerator_init "portable_reports" w).2 eq_refl).
Defined.

(** ** The driver, further *)

Lemma main_try rt w :
  main rt w = try_catch (main_body rt) main_except (after_start w).
Proof. reflexivity. Qed.


Lemma bind_raise {A B : Type} (m : M A) (f : A → M B) w e w1 :
  m w = (Raise e, w1) → (m ≫= f) w = (Raise e, w1).
Proof. intros H. unfold mbind, M_bind. by rewrite H. Qed.

(** When the fetch fails, for whatever reason, the driver makes no
    directory, writes no file and does not read the clock. *)
Theorem main_no_write_without_fetch rt w e :
  (fetch_data rt w).1 = Raise e →
  w_nodes (main rt w).2 = w_nodes w ∧ w_ticks (main rt w).2 = w_ticks w.
Proof.
  rewrite fetch_data_outcome.
  destruct (fetch_outcome rt (w_urlopen w)) as [users|e0] eqn:Hout; [done|].
  intros _.
  assert (Hbody : main_body rt (after_start w) =
                  (Raise (leaving e0), after_fetch_start (after_start w))).
  { unfold main_body. apply bind_raise.
    rewrite fetch_data_outcome.
    change (w_urlopen (after_start w)) with (w_urlopen w). by rewrite Hout. }
  rewrite main_try. unfold try_catch. rewrite Hbody.
  unfold main_except. destruct (isinstance (leaving e0) Exception); [|done].
  unfold_M. unfold input. cbn. by destruct (w_stdin w).
Qed.

(** The server cannot be reached. *)
Lemma main_no_write_witness :
  let e := mk_pyexc URLError "<urlopen error timed out>" "timed out" in
  let w := sample_world (Raise e) in
  w_nodes (main RefRuntime.runtime w).2 = ∅ ∧
  w_ticks (main RefRuntime.runtime w).2 = 0%nat.
Proof.
  intros e w.
  exact (main_no_write_without_fetch RefRuntime.runtime w
           (new_exc APIConnectionError "Network Error: timed out") eq_refl).
Defined.



















(** A name with a lone surrogate, as the escape [\ud800] decodes to: the
    records are fetched and the file is opened, but the report cannot be
    encoded; the run ends with the [Fatal Error] line and leaves the file
    empty. *)
Example main_report_not_encodable :
  let surrogate := String "237" (String "160" (String "128" "")) in
  let rt :=
    mk_PyRuntime (λ _, Ok (PList [PDict [("name", PStr surrogate)]]))
      RefRuntime.ref_str_repr RefRuntime.ref_abspath in
  let w := sample_world (Ok (mk_response 200 (Ok "[...]"))) in
  (main rt w).1 = Ok () ∧
  w_nodes (main rt w).2 !! "portable_reports/Report_20261103_172405.txt"
  = Some (File "") ∧
  endswith (w_stdout (main rt w).2)
    ("Fatal Error: 'utf-8' codec can't encode character: surrogates not allowed"
     +:+ newline +:+ "Press Enter to exit...") = true.
Proof. repeat split; vm_compute; reflexivity. Qed.
